(** * FlowBoard: the data-access layer, the Kanban board, the realtime
    bridge and the team-invitation page, embedded in Rocq.

    The application is a browser client of a hosted relational backend.
    Every handler is a short sequence of backend requests and user-interface
    effects, so the embedding is a state-and-exception monad over a [World]:
    the backend's tables, the answers the backend is going to give (it may
    refuse any request with an error message), and one chronological trace
    of everything the client did (requests, toasts, console output,
    navigation, component-state writes). *)

From Stdlib Require Import String Ascii List Bool Arith Lia Permutation Sorted.
From Stdlib Require Import OrderedTypeEx.
Import ListNotations.
Open Scope string_scope.

Set Implicit Arguments.

(** ** Entities (services/projectService.ts, the file with [fetchProjects]) *)

(** [Task['status']] and [Task['priority']] are unions of string literals. *)
Inductive Status := todo | in_progress | review | completed.
Inductive Priority := low | medium | high.

Definition status_str (s : Status) : string :=
  match s with
  | todo => "todo" | in_progress => "in-progress"
  | review => "review" | completed => "completed"
  end.

Definition priority_str (p : Priority) : string :=
  match p with low => "low" | medium => "medium" | high => "high" end.

Definition status_eqb (a b : Status) : bool :=
  match a, b with
  | todo, todo | in_progress, in_progress
  | review, review | completed, completed => true
  | _, _ => false
  end.

Module Project.
Record t := mk {
  id : string; name : string; description : option string;
  user_id : string; created_at : string; updated_at : string }.
(** [Omit<Project, 'id' | 'created_at' | 'updated_at'>] *)
Record fresh := mkFresh {
  f_name : string; f_description : option string; f_user_id : string }.
(** [Partial<Project>] *)
Record partial := mkPartial {
  p_id : option string; p_name : option string;
  p_description : option (option string); p_user_id : option string;
  p_created_at : option string; p_updated_at : option string }.
End Project.

Module Task.
Record t := mk {
  id : string; title : string; description : option string;
  status : Status; priority : Priority; due_date : option string;
  project_id : string; user_id : string;
  created_at : string; updated_at : string }.
Record fresh := mkFresh {
  f_title : string; f_description : option string; f_status : Status;
  f_priority : Priority; f_due_date : option string;
  f_project_id : string; f_user_id : string }.
Record partial := mkPartial {
  p_id : option string; p_title : option string;
  p_description : option (option string); p_status : option Status;
  p_priority : option Priority; p_due_date : option (option string);
  p_project_id : option string; p_user_id : option string;
  p_created_at : option string; p_updated_at : option string }.
(** The object literal [{ status }]. *)
Definition only_status (s : Status) : partial :=
  mkPartial None None None (Some s) None None None None None None.
End Task.

Module Tag.
Record t := mk {
  id : string; name : string; color : string;
  project_id : option string; created_by : string; created_at : string }.
Record fresh := mkFresh {
  f_name : string; f_color : string;
  f_project_id : option string; f_created_by : string }.
End Tag.

Module TaskTag.
Record t := mk {
  id : string; task_id : string; tag_id : string; created_at : string }.
End TaskTag.

Module Team.
Record t := mk {
  id : string; name : string; description : option string;
  created_by : string; created_at : string; updated_at : string }.
Record fresh := mkFresh {
  f_name : string; f_description : option string; f_created_by : string }.
End Team.

Module TeamMember.
Record t := mk {
  id : string; team_id : string; user_id : string;
  role : string; created_at : string }.
Record fresh := mkFresh {
  f_team_id : string; f_user_id : string; f_role : string }.
End TeamMember.

Module UserProfile.
Record t := mk {
  id : string; username : option string; full_name : option string;
  avatar_url : option string; job_title : option string;
  bio : option string; created_at : string; updated_at : string }.
Record partial := mkPartial {
  p_id : option string; p_username : option (option string);
  p_full_name : option (option string);
  p_avatar_url : option (option string);
  p_job_title : option (option string); p_bio : option (option string);
  p_created_at : option string; p_updated_at : option string }.
End UserProfile.

Module Comment.
Record t := mk {
  id : string; task_id : string; user_id : string; content : string;
  created_at : string; updated_at : string }.
Record fresh := mkFresh {
  f_task_id : string; f_user_id : string; f_content : string }.
End Comment.

(** A row of [project_members]; the columns are the ones the service reads
    and writes. *)
Module ProjectMember.
Record t := mk {
  id : string; project_id : string; user_id : string; role : string }.
(** The embedded resource [user_profiles:user_id (id, username,
    full_name, avatar_url)]. *)
Record profile := mkProfile {
  pr_id : string; pr_username : option string;
  pr_full_name : option string; pr_avatar_url : option string }.
(** One element of the [any[]] that [fetchProjectMembers] returns. *)
Record view := mkView {
  v_id : string; v_role : string; v_user_id : string;
  v_user_profiles : option profile }.
End ProjectMember.

(** A row of [team_invitations]; the columns are the ones the pages read and
    write ([token] and [status] are filled in by the backend on insert). *)
Module Invitation.
Record t := mk {
  id : string; team_id : string; email : string; role : string;
  status : string; token : string; invited_by : string;
  accepted_at : option string }.
Record fresh := mkFresh {
  f_team_id : string; f_email : string; f_role : string;
  f_invited_by : string }.
(** The object literal passed to [.update(...)]: the keys it carries. *)
Record partial := mkPartial {
  p_status : option string; p_accepted_at : option string }.
End Invitation.

(** A row of [task_history], which the reports page reads; the columns are
    the ones it looks at. *)
Module TaskHistory.
Record t := mk { new_status : string; created_at : string }.
End TaskHistory.

(** ** The backend *)

Record Db := mkDb {
  projects : list Project.t;
  tasks : list Task.t;
  teams : list Team.t;
  team_members : list TeamMember.t;
  team_invitations : list Invitation.t;
  user_profiles : list UserProfile.t;
  tags : list Tag.t;
  task_tags : list TaskTag.t;
  comments : list Comment.t;
  project_members : list ProjectMember.t;
  task_history : list TaskHistory.t }.

Definition empty_db : Db := mkDb [] [] [] [] [] [] [] [] [] [] [].

(** What the backend generates when it serves a request: the identity and
    token of an inserted row and the time of the request. *)
Record Gen := mkGen { gen_id : string; gen_token : string; gen_now : string }.

(** The backend's answer to one request: it refuses with an error message, or
    it serves the request. *)
Inductive Reply :=
| Fault (message : string)
| Served (g : Gen).

(** The [{ data, error }] pair of the client library. *)
Inductive Result (A : Type) :=
| Failure (message : string)
| Data (a : A).
Arguments Failure {A} message.
Arguments Data {A} a.

Definition error_of {A} (r : Result A) : option string :=
  match r with Failure m => Some m | Data _ => None end.

(** Every request the client sends, one constructor per query the source
    builds. *)
Inductive Request :=
| SelectProjects
| InsertProject (p : Project.fresh)
| UpdateProject (id : string) (u : Project.partial)
| DeleteProjectTasks (project_id : string)
| DeleteProject (id : string)
| SelectTasks (project_id : string)
| InsertTask (t : Task.fresh)
| UpdateTask (id : string) (u : Task.partial)
| DeleteTask (id : string)
| SelectTeams
| InsertTeam (t : Team.fresh)
| InsertTeamMember (m : TeamMember.fresh)
| SelectUserProfile (id : string)
| UpdateUserProfile (id : string) (u : UserProfile.partial)
| SelectTags (project_id : string)
| InsertTag (t : Tag.fresh)
| InsertTaskTag (task_id tag_id : string)
| DeleteTaskTag (task_id tag_id : string)
| SelectComments (task_id : string)
| InsertComment (c : Comment.fresh)
| InsertProjectMember (project_id user_id role : string)
| SelectProjectMembers (project_id : string)
| InsertInvitation (i : Invitation.fresh)
| UpdateInvitation (id : string) (u : Invitation.partial)
| SelectPendingInvitations (team_id : string)
| SelectTaskHistory.

Inductive ToastKind := success | error | info.

(** Everything the client does that can be observed, in order. *)
Inductive Event :=
| Backend (q : Request) (err : option string)
| Toast (k : ToastKind) (text : string)
| ConsoleError (text : string)
| Navigate (path : string)
| SetFlag (name : string) (value : bool)
| FormReset (name : string)
| ClipboardWrite (text : string) (ok : bool)
| SetCopied (token : string) (value : bool)
| SetTimeout (ms : nat).

Record World := mkWorld {
  db : Db;
  replies : list Reply;
  trace : list Event }.

(** ** The monad of handlers: state, and exceptions that carry a message *)

Inductive Outcome (A : Type) :=
| Threw (message : string)
| Returned (a : A).
Arguments Threw {A} message.
Arguments Returned {A} a.

Definition M (A : Type) : Type := World -> Outcome A * World.

Definition ret {A} (a : A) : M A := fun w => (Returned a, w).

Definition bind {A B} (m : M A) (k : A -> M B) : M B :=
  fun w =>
    match m w with
    | (Returned a, w') => k a w'
    | (Threw e, w') => (Threw e, w')
    end.

Definition throw {A} (e : string) : M A := fun w => (Threw e, w).

(** [try { body } catch (error) { handler error.message }] *)
Definition try_catch {A} (body : M A) (handler : string -> M A) : M A :=
  fun w =>
    match body w with
    | (Threw e, w') => handler e w'
    | (Returned a, w') => (Returned a, w')
    end.

(** [try { body } finally { fin }] *)
Definition try_finally {A} (body : M A) (fin : M unit) : M A :=
  fun w =>
    let (r, w') := body w in
    match fin w' with
    | (Threw e, w'') => (Threw e, w'')
    | (Returned _, w'') => (r, w'')
    end.

Definition emit (e : Event) : M unit :=
  fun w => (Returned tt, mkWorld (db w) (replies w) (trace w ++ [e])).

Declare Scope handler_scope.
Delimit Scope handler_scope with handler.
Notation "x <- m ;; k" := (bind m (fun x => k))
  (at level 61, m at next level, right associativity) : handler_scope.
Notation "m ;;; k" := (bind m (fun _ => k))
  (at level 61, right associativity) : handler_scope.
Open Scope handler_scope.

(** [if (error) throw error; ... data ...] *)
Definition or_throw {A} (r : Result A) : M A :=
  match r with Failure m => throw m | Data a => ret a end.

Definition toast_success (s : string) : M unit := emit (Toast success s).
Definition toast_error (s : string) : M unit := emit (Toast error s).
Definition toast_info (s : string) : M unit := emit (Toast info s).
Definition console_error (s : string) : M unit := emit (ConsoleError s).
Definition navigate (p : string) : M unit := emit (Navigate p).

Definition default_gen : Gen := mkGen "" "" "".

(** One round trip: the next reply is consumed; a refused request changes
    nothing; a served one runs [exec] on the tables, which may itself answer
    with an error.  When no reply is left the request is served with empty
    generated values.  The request and its outcome are appended to the
    trace. *)
Definition supabase {A} (q : Request) (exec : Gen -> Db -> Result A * Db)
  : M (Result A) :=
  fun w =>
    let serve g rest :=
      let (r, d) := exec g (db w) in
      (Returned r, mkWorld d rest (trace w ++ [Backend q (error_of r)])) in
    match replies w with
    | [] => serve default_gen []
    | Fault m :: rest =>
        (Returned (Failure m),
         mkWorld (db w) rest (trace w ++ [Backend q (Some m)]))
    | Served g :: rest => serve g rest
    end.

(** ** Query building blocks *)

Definition with_projects (f : list Project.t -> list Project.t) (d : Db) :=
  mkDb (f (projects d)) (tasks d) (teams d) (team_members d)
    (team_invitations d) (user_profiles d) (tags d) (task_tags d)
    (comments d) (project_members d)
    (task_history d).
Definition with_tasks (f : list Task.t -> list Task.t) (d : Db) :=
  mkDb (projects d) (f (tasks d)) (teams d) (team_members d)
    (team_invitations d) (user_profiles d) (tags d) (task_tags d)
    (comments d) (project_members d)
    (task_history d).
Definition with_teams (f : list Team.t -> list Team.t) (d : Db) :=
  mkDb (projects d) (tasks d) (f (teams d)) (team_members d)
    (team_invitations d) (user_profiles d) (tags d) (task_tags d)
    (comments d) (project_members d)
    (task_history d).
Definition with_team_members
  (f : list TeamMember.t -> list TeamMember.t) (d : Db) :=
  mkDb (projects d) (tasks d) (teams d) (f (team_members d))
    (team_invitations d) (user_profiles d) (tags d) (task_tags d)
    (comments d) (project_members d)
    (task_history d).
Definition with_team_invitations
  (f : list Invitation.t -> list Invitation.t) (d : Db) :=
  mkDb (projects d) (tasks d) (teams d) (team_members d)
    (f (team_invitations d)) (user_profiles d) (tags d) (task_tags d)
    (comments d) (project_members d)
    (task_history d).
Definition with_user_profiles
  (f : list UserProfile.t -> list UserProfile.t) (d : Db) :=
  mkDb (projects d) (tasks d) (teams d) (team_members d)
    (team_invitations d) (f (user_profiles d)) (tags d) (task_tags d)
    (comments d) (project_members d)
    (task_history d).
Definition with_tags (f : list Tag.t -> list Tag.t) (d : Db) :=
  mkDb (projects d) (tasks d) (teams d) (team_members d)
    (team_invitations d) (user_profiles d) (f (tags d)) (task_tags d)
    (comments d) (project_members d)
    (task_history d).
Definition with_task_tags (f : list TaskTag.t -> list TaskTag.t) (d : Db) :=
  mkDb (projects d) (tasks d) (teams d) (team_members d)
    (team_invitations d) (user_profiles d) (tags d) (f (task_tags d))
    (comments d) (project_members d)
    (task_history d).
Definition with_comments (f : list Comment.t -> list Comment.t) (d : Db) :=
  mkDb (projects d) (tasks d) (teams d) (team_members d)
    (team_invitations d) (user_profiles d) (tags d) (task_tags d)
    (f (comments d)) (project_members d)
    (task_history d).
Definition with_project_members
  (f : list ProjectMember.t -> list ProjectMember.t) (d : Db) :=
  mkDb (projects d) (tasks d) (teams d) (team_members d)
    (team_invitations d) (user_profiles d) (tags d) (task_tags d)
    (comments d) (f (project_members d))
    (task_history d).

(** [.order(column, { ascending })]: a stable insertion sort; [le a b] says
    that [a] may stand before [b]. *)
Fixpoint insert_by {A} (le : A -> A -> bool) (x : A) (l : list A) : list A :=
  match l with
  | [] => [x]
  | y :: l' => if le x y then x :: y :: l' else y :: insert_by le x l'
  end.

Definition order_by {A} (le : A -> A -> bool) (l : list A) : list A :=
  fold_right (insert_by le) [] l.

(** Timestamps travel as ISO-8601 strings of one format, which the
    lexicographic order of strings orders chronologically. *)
Definition ascending {A} (key : A -> string) (a b : A) : bool :=
  (key a <=? key b)%string.
Definition descending {A} (key : A -> string) (a b : A) : bool :=
  (key b <=? key a)%string.

Definition single_error : string :=
  "JSON object requested, multiple (or no) rows returned".

(** [.single()]: exactly one row, or an error. *)
Definition single {A} (rows : list A) : Result A :=
  match rows with
  | [x] => Data x
  | _ => Failure single_error
  end.

(** [.update(u).eq(...).select().single()] on one table: the rows that match
    are changed and returned; unless exactly one row matched, the request is
    an error and nothing is changed. *)
Definition update_single {A} (p : A -> bool) (f : A -> A) (l : list A)
  : Result A * list A :=
  match single (map f (filter p l)) with
  | Data x => (Data x, map (fun r => if p r then f r else r) l)
  | Failure m => (Failure m, l)
  end.

Definition patch {A} (o : option A) (old : A) : A :=
  match o with Some v => v | None => old end.

Definition apply_project (u : Project.partial) (r : Project.t) : Project.t :=
  Project.mk
    (patch (Project.p_id u) (Project.id r))
    (patch (Project.p_name u) (Project.name r))
    (patch (Project.p_description u) (Project.description r))
    (patch (Project.p_user_id u) (Project.user_id r))
    (patch (Project.p_created_at u) (Project.created_at r))
    (patch (Project.p_updated_at u) (Project.updated_at r)).

Definition apply_task (u : Task.partial) (r : Task.t) : Task.t :=
  Task.mk
    (patch (Task.p_id u) (Task.id r))
    (patch (Task.p_title u) (Task.title r))
    (patch (Task.p_description u) (Task.description r))
    (patch (Task.p_status u) (Task.status r))
    (patch (Task.p_priority u) (Task.priority r))
    (patch (Task.p_due_date u) (Task.due_date r))
    (patch (Task.p_project_id u) (Task.project_id r))
    (patch (Task.p_user_id u) (Task.user_id r))
    (patch (Task.p_created_at u) (Task.created_at r))
    (patch (Task.p_updated_at u) (Task.updated_at r)).

Definition apply_profile (u : UserProfile.partial) (r : UserProfile.t)
  : UserProfile.t :=
  UserProfile.mk
    (patch (UserProfile.p_id u) (UserProfile.id r))
    (patch (UserProfile.p_username u) (UserProfile.username r))
    (patch (UserProfile.p_full_name u) (UserProfile.full_name r))
    (patch (UserProfile.p_avatar_url u) (UserProfile.avatar_url r))
    (patch (UserProfile.p_job_title u) (UserProfile.job_title r))
    (patch (UserProfile.p_bio u) (UserProfile.bio r))
    (patch (UserProfile.p_created_at u) (UserProfile.created_at r))
    (patch (UserProfile.p_updated_at u) (UserProfile.updated_at r)).

Definition apply_invitation (u : Invitation.partial) (r : Invitation.t)
  : Invitation.t :=
  Invitation.mk (Invitation.id r) (Invitation.team_id r)
    (Invitation.email r) (Invitation.role r)
    (patch (Invitation.p_status u) (Invitation.status r))
    (Invitation.token r) (Invitation.invited_by r)
    (match Invitation.p_accepted_at u with
     | Some ts => Some ts
     | None => Invitation.accepted_at r
     end).

(** ** The service layer (services/projectService.ts) *)

(** *** Projects *)

Definition fetchProjects : M (list Project.t) :=
  try_catch
    (r <- supabase SelectProjects
            (fun _ d =>
               (Data (order_by (descending Project.created_at) (projects d)),
                d)) ;;
     data <- or_throw r ;;
     ret data)
    (fun message =>
       toast_error ("Error fetching projects: " ++ message) ;;; ret []).

Definition createProject (project : Project.fresh) : M (option Project.t) :=
  try_catch
    (r <- supabase (InsertProject project)
            (fun g d =>
               let row := Project.mk (gen_id g) (Project.f_name project)
                            (Project.f_description project)
                            (Project.f_user_id project)
                            (gen_now g) (gen_now g) in
               (Data row, with_projects (fun l => (l ++ [row])%list) d)) ;;
     data <- or_throw r ;;
     toast_success "Project created successfully!" ;;;
     ret (Some data))
    (fun message =>
       toast_error ("Error creating project: " ++ message) ;;; ret None).

Definition updateProject (id : string) (updates : Project.partial)
  : M (option Project.t) :=
  try_catch
    (r <- supabase (UpdateProject id updates)
            (fun _ d =>
               let (res, l) :=
                 update_single (fun p => (Project.id p =? id)%string)
                   (apply_project updates) (projects d) in
               (res, with_projects (fun _ => l) d)) ;;
     data <- or_throw r ;;
     toast_success "Project updated successfully!" ;;;
     ret (Some data))
    (fun message =>
       toast_error ("Error updating project: " ++ message) ;;; ret None).

Definition deleteProject (id : string) : M bool :=
  try_catch
    ((* First delete all tasks associated with the project *)
     tasksResult <- supabase (DeleteProjectTasks id)
            (fun _ d =>
               (Data tt,
                with_tasks
                  (filter (fun t => negb (Task.project_id t =? id)%string))
                  d)) ;;
     or_throw tasksResult ;;;
     (* Then delete the project *)
     r <- supabase (DeleteProject id)
            (fun _ d =>
               (Data tt,
                with_projects
                  (filter (fun p => negb (Project.id p =? id)%string)) d)) ;;
     or_throw r ;;;
     toast_success "Project deleted successfully!" ;;;
     ret true)
    (fun message =>
       toast_error ("Error deleting project: " ++ message) ;;; ret false).

(** *** Tasks *)

Definition fetchTasks (projectId : string) : M (list Task.t) :=
  try_catch
    (r <- supabase (SelectTasks projectId)
            (fun _ d =>
               (Data (order_by (descending Task.created_at)
                        (filter
                           (fun t => (Task.project_id t =? projectId)%string)
                           (tasks d))),
                d)) ;;
     data <- or_throw r ;;
     ret data)
    (fun message =>
       toast_error ("Error fetching tasks: " ++ message) ;;; ret []).

Definition createTask (task : Task.fresh) : M (option Task.t) :=
  try_catch
    (r <- supabase (InsertTask task)
            (fun g d =>
               let row := Task.mk (gen_id g) (Task.f_title task)
                            (Task.f_description task) (Task.f_status task)
                            (Task.f_priority task) (Task.f_due_date task)
                            (Task.f_project_id task) (Task.f_user_id task)
                            (gen_now g) (gen_now g) in
               (Data row, with_tasks (fun l => (l ++ [row])%list) d)) ;;
     data <- or_throw r ;;
     toast_success "Task created successfully!" ;;;
     ret (Some data))
    (fun message =>
       toast_error ("Error creating task: " ++ message) ;;; ret None).

Definition updateTask (id : string) (updates : Task.partial)
  : M (option Task.t) :=
  try_catch
    (r <- supabase (UpdateTask id updates)
            (fun _ d =>
               let (res, l) :=
                 update_single (fun t => (Task.id t =? id)%string)
                   (apply_task updates) (tasks d) in
               (res, with_tasks (fun _ => l) d)) ;;
     data <- or_throw r ;;
     toast_success "Task updated successfully!" ;;;
     ret (Some data))
    (fun message =>
       toast_error ("Error updating task: " ++ message) ;;; ret None).

Definition updateTaskStatus (id : string) (status : Status)
  : M (option Task.t) :=
  updateTask id (Task.only_status status).

Definition deleteTask (id : string) : M bool :=
  try_catch
    (r <- supabase (DeleteTask id)
            (fun _ d =>
               (Data tt,
                with_tasks (filter (fun t => negb (Task.id t =? id)%string))
                  d)) ;;
     or_throw r ;;;
     toast_success "Task deleted successfully!" ;;;
     ret true)
    (fun message =>
       toast_error ("Error deleting task: " ++ message) ;;; ret false).

(** *** Teams and team members *)

Definition fetchTeams : M (list Team.t) :=
  try_catch
    (r <- supabase SelectTeams
            (fun _ d =>
               (Data (order_by (descending Team.created_at) (teams d)), d)) ;;
     data <- or_throw r ;;
     ret data)
    (fun message =>
       toast_error ("Error fetching teams: " ++ message) ;;; ret []).

Definition createTeam (team : Team.fresh) : M (option Team.t) :=
  try_catch
    (r <- supabase (InsertTeam team)
            (fun g d =>
               let row := Team.mk (gen_id g) (Team.f_name team)
                            (Team.f_description team)
                            (Team.f_created_by team)
                            (gen_now g) (gen_now g) in
               (Data row, with_teams (fun l => (l ++ [row])%list) d)) ;;
     data <- or_throw r ;;
     toast_success "Team created successfully!" ;;;
     ret (Some data))
    (fun message =>
       toast_error ("Error creating team: " ++ message) ;;; ret None).

Definition insert_team_member (m : TeamMember.fresh) (g : Gen) (d : Db)
  : TeamMember.t * Db :=
  let row := TeamMember.mk (gen_id g) (TeamMember.f_team_id m)
               (TeamMember.f_user_id m) (TeamMember.f_role m) (gen_now g) in
  (row, with_team_members (fun l => (l ++ [row])%list) d).

Definition addTeamMember (teamMember : TeamMember.fresh)
  : M (option TeamMember.t) :=
  try_catch
    (r <- supabase (InsertTeamMember teamMember)
            (fun g d =>
               let (row, d') := insert_team_member teamMember g d in
               (Data row, d')) ;;
     data <- or_throw r ;;
     toast_success "Team member added successfully!" ;;;
     ret (Some data))
    (fun message =>
       toast_error ("Error adding team member: " ++ message) ;;; ret None).

(** *** User profiles *)

Definition fetchUserProfile (userId : string) : M (option UserProfile.t) :=
  try_catch
    (r <- supabase (SelectUserProfile userId)
            (fun _ d =>
               (single
                  (filter (fun p => (UserProfile.id p =? userId)%string)
                     (user_profiles d)),
                d)) ;;
     data <- or_throw r ;;
     ret (Some data))
    (fun message =>
       console_error ("Error fetching user profile: " ++ message) ;;;
       ret None).

Definition updateUserProfile (userId : string) (updates : UserProfile.partial)
  : M (option UserProfile.t) :=
  try_catch
    (r <- supabase (UpdateUserProfile userId updates)
            (fun _ d =>
               let (res, l) :=
                 update_single (fun p => (UserProfile.id p =? userId)%string)
                   (apply_profile updates) (user_profiles d) in
               (res, with_user_profiles (fun _ => l) d)) ;;
     data <- or_throw r ;;
     toast_success "Profile updated successfully!" ;;;
     ret (Some data))
    (fun message =>
       toast_error ("Error updating profile: " ++ message) ;;; ret None).

(** *** Tags *)

Definition option_is (o : option string) (s : string) : bool :=
  match o with Some x => (x =? s)%string | None => false end.

Definition fetchTags (projectId : string) : M (list Tag.t) :=
  try_catch
    (r <- supabase (SelectTags projectId)
            (fun _ d =>
               (Data (order_by (ascending Tag.name)
                        (filter
                           (fun t => option_is (Tag.project_id t) projectId)
                           (tags d))),
                d)) ;;
     data <- or_throw r ;;
     ret data)
    (fun message =>
       toast_error ("Error fetching tags: " ++ message) ;;; ret []).

Definition createTag (tag : Tag.fresh) : M (option Tag.t) :=
  try_catch
    (r <- supabase (InsertTag tag)
            (fun g d =>
               let row := Tag.mk (gen_id g) (Tag.f_name tag) (Tag.f_color tag)
                            (Tag.f_project_id tag) (Tag.f_created_by tag)
                            (gen_now g) in
               (Data row, with_tags (fun l => (l ++ [row])%list) d)) ;;
     data <- or_throw r ;;
     toast_success "Tag created successfully!" ;;;
     ret (Some data))
    (fun message =>
       toast_error ("Error creating tag: " ++ message) ;;; ret None).

Definition addTagToTask (taskId tagId : string) : M (option TaskTag.t) :=
  try_catch
    (r <- supabase (InsertTaskTag taskId tagId)
            (fun g d =>
               let row := TaskTag.mk (gen_id g) taskId tagId (gen_now g) in
               (Data row, with_task_tags (fun l => (l ++ [row])%list) d)) ;;
     data <- or_throw r ;;
     ret (Some data))
    (fun message =>
       toast_error ("Error adding tag to task: " ++ message) ;;; ret None).

Definition removeTagFromTask (taskId tagId : string) : M bool :=
  try_catch
    (r <- supabase (DeleteTaskTag taskId tagId)
            (fun _ d =>
               (Data tt,
                with_task_tags
                  (filter
                     (fun x => negb ((TaskTag.task_id x =? taskId)%string
                                     && (TaskTag.tag_id x =? tagId)%string)))
                  d)) ;;
     or_throw r ;;;
     ret true)
    (fun message =>
       toast_error ("Error removing tag from task: " ++ message) ;;;
       ret false).

(** *** Comments *)

Definition fetchComments (taskId : string) : M (list Comment.t) :=
  try_catch
    (r <- supabase (SelectComments taskId)
            (fun _ d =>
               (Data (order_by (ascending Comment.created_at)
                        (filter
                           (fun c => (Comment.task_id c =? taskId)%string)
                           (comments d))),
                d)) ;;
     data <- or_throw r ;;
     ret data)
    (fun message =>
       toast_error ("Error fetching comments: " ++ message) ;;; ret []).

Definition createComment (comment : Comment.fresh) : M (option Comment.t) :=
  try_catch
    (r <- supabase (InsertComment comment)
            (fun g d =>
               let row := Comment.mk (gen_id g) (Comment.f_task_id comment)
                            (Comment.f_user_id comment)
                            (Comment.f_content comment)
                            (gen_now g) (gen_now g) in
               (Data row, with_comments (fun l => (l ++ [row])%list) d)) ;;
     data <- or_throw r ;;
     ret (Some data))
    (fun message =>
       toast_error ("Error creating comment: " ++ message) ;;; ret None).

(** *** Project members *)

Definition addProjectMember (projectId userId role : string) : M bool :=
  try_catch
    (r <- supabase (InsertProjectMember projectId userId role)
            (fun g d =>
               let row := ProjectMember.mk (gen_id g) projectId userId role in
               (Data tt,
                with_project_members (fun l => (l ++ [row])%list) d)) ;;
     or_throw r ;;;
     toast_success "Member added to project successfully!" ;;;
     ret true)
    (fun message =>
       toast_error ("Error adding member to project: " ++ message) ;;;
       ret false).

Definition member_view (profiles : list UserProfile.t) (m : ProjectMember.t)
  : ProjectMember.view :=
  ProjectMember.mkView (ProjectMember.id m) (ProjectMember.role m)
    (ProjectMember.user_id m)
    (option_map
       (fun p => ProjectMember.mkProfile (UserProfile.id p)
                   (UserProfile.username p) (UserProfile.full_name p)
                   (UserProfile.avatar_url p))
       (find (fun p => (UserProfile.id p =? ProjectMember.user_id m)%string)
          profiles)).

Definition fetchProjectMembers (projectId : string)
  : M (list ProjectMember.view) :=
  try_catch
    (r <- supabase (SelectProjectMembers projectId)
            (fun _ d =>
               (Data (map (member_view (user_profiles d))
                        (filter
                           (fun m =>
                              (ProjectMember.project_id m =? projectId)%string)
                           (project_members d))),
                d)) ;;
     data <- or_throw r ;;
     ret data)
    (fun message =>
       toast_error ("Error fetching project members: " ++ message) ;;;
       ret []).

(** The service layer as one interface: a call, the type of its result, and
    the value it hands back when it gives up. *)
Inductive ServiceCall :=
| CallFetchProjects
| CallCreateProject (project : Project.fresh)
| CallUpdateProject (id : string) (updates : Project.partial)
| CallDeleteProject (id : string)
| CallFetchTasks (projectId : string)
| CallCreateTask (task : Task.fresh)
| CallUpdateTask (id : string) (updates : Task.partial)
| CallUpdateTaskStatus (id : string) (status : Status)
| CallDeleteTask (id : string)
| CallFetchTeams
| CallCreateTeam (team : Team.fresh)
| CallAddTeamMember (teamMember : TeamMember.fresh)
| CallFetchUserProfile (userId : string)
| CallUpdateUserProfile (userId : string) (updates : UserProfile.partial)
| CallFetchTags (projectId : string)
| CallCreateTag (tag : Tag.fresh)
| CallAddTagToTask (taskId tagId : string)
| CallRemoveTagFromTask (taskId tagId : string)
| CallFetchComments (taskId : string)
| CallCreateComment (comment : Comment.fresh)
| CallAddProjectMember (projectId userId role : string)
| CallFetchProjectMembers (projectId : string).

(** What a caller can tell from a result: whether it is the null, empty or
    false value. *)
Inductive Shape := Nothing | Something.

Definition shape_list {A} (l : list A) : Shape :=
  match l with [] => Nothing | _ => Something end.
Definition shape_option {A} (o : option A) : Shape :=
  match o with None => Nothing | Some _ => Something end.
Definition shape_bool (b : bool) : Shape :=
  if b then Something else Nothing.

Definition shaped {A} (f : A -> Shape) (m : M A) : M Shape :=
  a <- m ;; ret (f a).

Definition service (c : ServiceCall) : M Shape :=
  match c with
  | CallFetchProjects => shaped shape_list fetchProjects
  | CallCreateProject p => shaped shape_option (createProject p)
  | CallUpdateProject i u => shaped shape_option (updateProject i u)
  | CallDeleteProject i => shaped shape_bool (deleteProject i)
  | CallFetchTasks p => shaped shape_list (fetchTasks p)
  | CallCreateTask t => shaped shape_option (createTask t)
  | CallUpdateTask i u => shaped shape_option (updateTask i u)
  | CallUpdateTaskStatus i s => shaped shape_option (updateTaskStatus i s)
  | CallDeleteTask i => shaped shape_bool (deleteTask i)
  | CallFetchTeams => shaped shape_list fetchTeams
  | CallCreateTeam t => shaped shape_option (createTeam t)
  | CallAddTeamMember m => shaped shape_option (addTeamMember m)
  | CallFetchUserProfile u => shaped shape_option (fetchUserProfile u)
  | CallUpdateUserProfile i u => shaped shape_option (updateUserProfile i u)
  | CallFetchTags p => shaped shape_list (fetchTags p)
  | CallCreateTag t => shaped shape_option (createTag t)
  | CallAddTagToTask t g => shaped shape_option (addTagToTask t g)
  | CallRemoveTagFromTask t g => shaped shape_bool (removeTagFromTask t g)
  | CallFetchComments t => shaped shape_list (fetchComments t)
  | CallCreateComment c => shaped shape_option (createComment c)
  | CallAddProjectMember p u r => shaped shape_bool (addProjectMember p u r)
  | CallFetchProjectMembers p => shaped shape_list (fetchProjectMembers p)
  end.

(** The text each function puts before the backend's message. *)
Definition failure_label (c : ServiceCall) : string :=
  match c with
  | CallFetchProjects => "Error fetching projects: "
  | CallCreateProject _ => "Error creating project: "
  | CallUpdateProject _ _ => "Error updating project: "
  | CallDeleteProject _ => "Error deleting project: "
  | CallFetchTasks _ => "Error fetching tasks: "
  | CallCreateTask _ => "Error creating task: "
  | CallUpdateTask _ _ | CallUpdateTaskStatus _ _ => "Error updating task: "
  | CallDeleteTask _ => "Error deleting task: "
  | CallFetchTeams => "Error fetching teams: "
  | CallCreateTeam _ => "Error creating team: "
  | CallAddTeamMember _ => "Error adding team member: "
  | CallFetchUserProfile _ => "Error fetching user profile: "
  | CallUpdateUserProfile _ _ => "Error updating profile: "
  | CallFetchTags _ => "Error fetching tags: "
  | CallCreateTag _ => "Error creating tag: "
  | CallAddTagToTask _ _ => "Error adding tag to task: "
  | CallRemoveTagFromTask _ _ => "Error removing tag from task: "
  | CallFetchComments _ => "Error fetching comments: "
  | CallCreateComment _ => "Error creating comment: "
  | CallAddProjectMember _ _ _ => "Error adding member to project: "
  | CallFetchProjectMembers _ => "Error fetching project members: "
  end.

Definition is_fetchUserProfile (c : ServiceCall) : bool :=
  match c with CallFetchUserProfile _ => true | _ => false end.

(** ** The Kanban board (components/KanbanBoard.tsx) *)

(** [String.prototype.toLowerCase] and [includes] on ASCII text: the letters
    A to Z are lowered and every other character is kept.  Text with letters
    outside ASCII, which the browser lowers too, is outside what the model
    covers; no proof below depends on how a character is lowered. *)
Definition lower_ascii (c : ascii) : ascii :=
  let n := nat_of_ascii c in
  if (65 <=? n)%nat && (n <=? 90)%nat then ascii_of_nat (n + 32) else c.

Fixpoint toLowerCase (s : string) : string :=
  match s with
  | EmptyString => EmptyString
  | String c r => String (lower_ascii c) (toLowerCase r)
  end.

Definition includes (s sub : string) : bool :=
  match index 0 sub s with Some _ => true | None => false end.

(** [Array.prototype.includes] on an array of strings. *)
Definition array_includes (l : list string) (x : string) : bool :=
  existsb (fun y => (y =? x)%string) l.

(** The component state [filters] ([tags] is never read). *)
Record Filters := mkFilters { f_priority : list string; f_tags : list string }.

Definition matchesSearch (searchTerm : string) (task : Task.t) : bool :=
  (searchTerm =? "")%string
  || includes (toLowerCase (Task.title task)) (toLowerCase searchTerm)
  || match Task.description task with
     | Some d =>
         negb (d =? "")%string
         && includes (toLowerCase d) (toLowerCase searchTerm)
     | None => false
     end.

Definition matchesPriority (filters : Filters) (task : Task.t) : bool :=
  (length (f_priority filters) =? 0)%nat
  || array_includes (f_priority filters) (priority_str (Task.priority task)).

Definition filteredTasks (searchTerm : string) (filters : Filters)
  (tasks : list Task.t) : list Task.t :=
  filter
    (fun task => matchesSearch searchTerm task && matchesPriority filters task)
    tasks.

Definition columns : list (string * Status) :=
  [("To Do", todo); ("In Progress", in_progress);
   ("In Review", review); ("Completed", completed)].

(** [columnCounts[status]] *)
Definition columnCounts (filtered : list Task.t) (status : Status) : nat :=
  match status with
  | todo =>
      length (filter (fun t => status_eqb (Task.status t) todo) filtered)
  | in_progress =>
      length
        (filter (fun t => status_eqb (Task.status t) in_progress) filtered)
  | review =>
      length (filter (fun t => status_eqb (Task.status t) review) filtered)
  | completed =>
      length (filter (fun t => status_eqb (Task.status t) completed) filtered)
  end.

(** The cards a [KanbanColumn] renders from its [tasks] property. *)
Definition column_cards (status : Status) (tasks : list Task.t)
  : list Task.t :=
  filter (fun task => status_eqb (Task.status task) status) tasks.

(** What a task card puts in the drag's transfer data
    ([TaskCard.handleDragStart]). *)
Record DragData := mkDrag { drag_id : string; drag_status : Status }.

Definition handleDragStart (task : Task.t) : DragData :=
  mkDrag (Task.id task) (Task.status task).

Definition handleTaskDrop (task : Task.t) (newStatus : Status) : M unit :=
  try_catch
    (updateTaskStatus (Task.id task) newStatus ;;; ret tt)
    (fun message => console_error ("Error updating task status: " ++ message)).

Definition handleDeleteTask (id : string) : M unit :=
  try_catch
    (deleteTask id ;;; ret tt)
    (fun message => console_error ("Error deleting task: " ++ message)).

(** [KanbanColumn.handleDrop]; [taskData] is [None] when the drag carries
    no data of the board's type. *)
Definition handleDrop (status : Status) (tasks : list Task.t)
  (onDrop : Task.t -> Status -> M unit) (taskData : option DragData)
  : M unit :=
  emit (SetFlag "isDropping" false) ;;;
  match taskData with
  | Some task =>
      if negb (status_eqb (drag_status task) status) then
        match find (fun t => (Task.id t =? drag_id task)%string) tasks with
        | Some fullTask => onDrop fullTask status
        | None => ret tt
        end
      else ret tt
  | None => ret tt
  end.

(** A drop on the column [status] of a board that shows [tasks] under the
    current search term and filters. *)
Definition board_drop (searchTerm : string) (filters : Filters)
  (tasks : list Task.t) (status : Status) (taskData : option DragData)
  : M unit :=
  handleDrop status (filteredTasks searchTerm filters tasks) handleTaskDrop
    taskData.

(** ** The realtime bridge (pages/ProjectDetail.tsx) *)

(** A row-change notification, with the fields the handler reads. *)
Inductive Payload :=
| INSERT (new : Task.t)
| UPDATE (new : Task.t)
| DELETE (old_id : string).

(** The callback of the tasks channel, as the state update it performs. *)
Definition tasks_handler (payload : Payload) (prev : list Task.t)
  : list Task.t :=
  match payload with
  | INSERT new => new :: prev
  | UPDATE new =>
      map (fun task => if (Task.id task =? Task.id new)%string
                       then new else task) prev
  | DELETE old_id =>
      filter (fun task => negb (Task.id task =? old_id)%string) prev
  end.

(** ** Team invitations (the invitation page and pages/TeamPage.tsx) *)

(** The signed-in identity. *)
Record User := mkUser { user_id : string; user_email : option string }.

(** The page's [TeamInvitation], with the fields the handlers read. *)
Record TeamInvitation := mkTeamInvitation {
  inv_id : string; inv_team_id : string; inv_email : string;
  inv_role : string; inv_status : string }.

(** Modelled from the spec: the schema of [team_invitations] is not in the
    sources; an invitation's status is one of pending, accepted, declined and
    a new row starts as pending. *)
Definition default_invitation_status : string := "pending".

Definition email_matches (u : User) (i : TeamInvitation) : bool :=
  match user_email u with
  | Some e => (e =? inv_email i)%string
  | None => false
  end.

Definition update_invitations (id : string) (u : Invitation.partial)
  (d : Db) : Db :=
  with_team_invitations
    (map (fun r => if (Invitation.id r =? id)%string
                   then apply_invitation u r else r)) d.

(** [handleAccept]; [now] is [new Date().toISOString()]. *)
Definition handleAccept (user : option User)
  (invitation : option TeamInvitation) (now : string) : M unit :=
  match user, invitation with
  | Some user, Some invitation =>
      emit (SetFlag "isAccepting" true) ;;;
      try_finally
        (try_catch
           ((* Check email matches *)
            if negb (email_matches user invitation) then
              toast_error
                "This invitation was sent to a different email address"
            else
              (* Add user to team *)
              let member :=
                TeamMember.mkFresh (inv_team_id invitation) (user_id user)
                  (inv_role invitation) in
              memberResult <- supabase (InsertTeamMember member)
                     (fun g d => (Data tt, snd (insert_team_member member g d))) ;;
              or_throw memberResult ;;;
              (* Update invitation status *)
              let u := Invitation.mkPartial (Some "accepted") (Some now) in
              updateResult <- supabase (UpdateInvitation (inv_id invitation) u)
                     (fun _ d =>
                        (Data tt, update_invitations (inv_id invitation) u d)) ;;
              or_throw updateResult ;;;
              toast_success "You have successfully joined the team!" ;;;
              navigate "/teams")
           (fun message =>
              console_error ("Error accepting invitation: " ++ message) ;;;
              toast_error "There was a problem accepting the invitation"))
        (emit (SetFlag "isAccepting" false))
  | _, _ => ret tt
  end.

Definition handleDecline (invitation : option TeamInvitation) : M unit :=
  match invitation with
  | Some invitation =>
      emit (SetFlag "isDeclining" true) ;;;
      try_finally
        (try_catch
           (let u := Invitation.mkPartial (Some "declined") None in
            r <- supabase (UpdateInvitation (inv_id invitation) u)
                   (fun _ d =>
                      (Data tt, update_invitations (inv_id invitation) u d)) ;;
            or_throw r ;;;
            toast_info "Invitation declined" ;;;
            navigate "/")
           (fun message =>
              console_error ("Error declining invitation: " ++ message) ;;;
              toast_error "There was a problem declining the invitation"))
        (emit (SetFlag "isDeclining" false))
  | None => ret tt
  end.

Definition insert_invitation (i : Invitation.fresh) (g : Gen) (d : Db)
  : Result Invitation.t * Db :=
  let row := Invitation.mk (gen_id g) (Invitation.f_team_id i)
               (Invitation.f_email i) (Invitation.f_role i)
               default_invitation_status (gen_token g)
               (Invitation.f_invited_by i) None in
  (Data row, with_team_invitations (fun l => (l ++ [row])%list) d).

(** The invite form's values. *)
Record InviteFormValues := mkInvite { v_email : string; v_role : string }.

(** [TeamPage.handleInvite] *)
Definition handleInvite (user : option User) (currentTeam : option string)
  (values : InviteFormValues) : M unit :=
  match user, currentTeam with
  | Some user, Some currentTeam =>
      (* [!currentTeam] also holds of the empty string *)
      if (currentTeam =? "")%string then ret tt else
      try_finally
        (try_catch
           (emit (SetFlag "isInviting" true) ;;;
            r <- supabase
                   (InsertInvitation
                      (Invitation.mkFresh currentTeam (v_email values)
                         (v_role values) (user_id user)))
                   (insert_invitation
                      (Invitation.mkFresh currentTeam (v_email values)
                         (v_role values) (user_id user))) ;;
            or_throw r ;;;
            emit (FormReset "inviteForm") ;;;
            emit (SetFlag "isInviteDialogOpen" false) ;;;
            toast_success ("Invitation sent to " ++ v_email values))
           (fun message =>
              console_error ("Error sending invitation: " ++ message) ;;;
              toast_error ("Error sending invitation: " ++ message)))
        (emit (SetFlag "isInviting" false))
  | _, _ => ret tt
  end.

(** The browser as the page sees it: the window's origin and whether the
    clipboard accepts a write. *)
Record Browser := mkBrowser { origin : string; clipboard_ok : bool }.

(** [TeamPage.copyInvitationLink]; the timer's callback runs later and is
    not part of the call. *)
Definition copyInvitationLink (b : Browser) (token : string) : M unit :=
  let link := origin b ++ "/team/invite/" ++ token in
  try_catch
    (emit (ClipboardWrite link (clipboard_ok b)) ;;;
     (if clipboard_ok b then ret tt else throw "NotAllowedError") ;;;
     emit (SetCopied token true) ;;;
     emit (SetTimeout 2000) ;;;
     toast_success "Invitation link copied to clipboard")
    (fun _ => toast_error "Failed to copy link").

(** [TeamPage.getInvitationLink] *)
Definition getInvitationLink (b : Browser) (user : option User)
  (teamId : string) : M unit :=
  try_catch
    (existing <- supabase (SelectPendingInvitations teamId)
           (fun _ d =>
              (Data (filter
                       (fun r => (Invitation.team_id r =? teamId)%string
                                 && (Invitation.status r =? "pending")%string)
                       (team_invitations d)),
               d)) ;;
     existingInvitations <- or_throw existing ;;
     token <-
       match existingInvitations with
       | first :: _ => ret (Invitation.token first)
       | [] =>
           let i := Invitation.mkFresh teamId "general_invite@example.com"
                      "member"
                      (match user with Some u => user_id u | None => "" end) in
           r <- supabase (InsertInvitation i) (insert_invitation i) ;;
           data <- or_throw r ;;
           ret (Invitation.token data)
       end ;;
     copyInvitationLink b token)
    (fun message =>
       console_error ("Error generating invitation link: " ++ message) ;;;
       toast_error "Failed to generate invitation link").

(** Everything the application does that writes to the backend. *)
Inductive Action :=
| DoService (c : ServiceCall)
| DoDrop (searchTerm : string) (filters : Filters) (tasks : list Task.t)
    (status : Status) (taskData : option DragData)
| DoAccept (user : option User) (invitation : option TeamInvitation)
    (now : string)
| DoDecline (invitation : option TeamInvitation)
| DoInvite (user : option User) (currentTeam : option string)
    (values : InviteFormValues)
| DoInvitationLink (b : Browser) (user : option User) (teamId : string).

Definition perform (a : Action) : M unit :=
  match a with
  | DoService c => service c ;;; ret tt
  | DoDrop s f t st d => board_drop s f t st d
  | DoAccept u i now => handleAccept u i now
  | DoDecline i => handleDecline i
  | DoInvite u t v => handleInvite u t v
  | DoInvitationLink b u t => getInvitationLink b u t
  end.

(** The world after a sequence of actions, one after the other. *)
Definition perform_all (l : list Action) (w : World) : World :=
  fold_left (fun w a => snd (perform a w)) l w.

(** ** The filter menu (components/KanbanBoard.tsx) *)

(** The [checked] property of a priority's checkbox. *)
Definition priority_checked (filters : Filters) (priority : string) : bool :=
  array_includes (f_priority filters) priority.

(** [onCheckedChange] of a priority's checkbox, as the update of [filters]
    it performs. *)
Definition onCheckedChange (priority : string) (checked : bool)
  (prev : Filters) : Filters :=
  mkFilters
    (if checked then (f_priority prev ++ [priority])%list
     else filter (fun p => negb (p =? priority)%string) (f_priority prev))
    (f_tags prev).

(** ** Reports and dashboard (pages/ReportsPage.tsx and the dashboard page) *)

Definition getStatusColor (status : string) : string :=
  if (status =? "todo")%string then "#94a3b8"
  else if (status =? "in-progress")%string then "#3b82f6"
  else if (status =? "review")%string then "#f59e0b"
  else if (status =? "completed")%string then "#22c55e"
  else "#94a3b8".

Definition getPriorityColor (priority : string) : string :=
  if (priority =? "high")%string then "#ef4444"
  else if (priority =? "medium")%string then "#f59e0b"
  else if (priority =? "low")%string then "#3b82f6"
  else "#3b82f6".

Definition priority_eqb (a b : Priority) : bool :=
  match a, b with
  | low, low | medium, medium | high, high => true
  | _, _ => false
  end.

(** The loop both pages run:
    [for (const project of projects) {
       const tasks = await fetchTasks(project.id); allTasks.push(...tasks) }] *)
Fixpoint collectTasks (projects : list Project.t) (allTasks : list Task.t)
  : M (list Task.t) :=
  match projects with
  | [] => ret allTasks
  | project :: rest =>
      tasks <- fetchTasks (Project.id project) ;;
      collectTasks rest (allTasks ++ tasks)%list
  end.

Definition projectsToFetch (projects : list Project.t)
  (selectedProject : string) : list Project.t :=
  if (selectedProject =? "all")%string then projects
  else filter (fun p => (Project.id p =? selectedProject)%string) projects.

Definition daysToSubtract (selectedPeriod : string) : nat :=
  if (selectedPeriod =? "last-30-days")%string then 30
  else if (selectedPeriod =? "last-90-days")%string then 90
  else 7.

(** The period filter; [created_since days created_at] stands for
    [new Date(created_at) >= startDate], with [startDate] the browser's
    clock moved back by [days]. *)
Definition filterByPeriod (created_since : nat -> string -> bool)
  (selectedPeriod : string) (allTasks : list Task.t) : list Task.t :=
  if negb (selectedPeriod =? "all-time")%string then
    filter
      (fun task =>
         created_since (daysToSubtract selectedPeriod) (Task.created_at task))
      allTasks
  else allTasks.

Module TaskStats.
Record t := mk {
  total : nat; completed : nat; inProgress : nat; todo : nat; review : nat;
  high : nat; medium : nat; low : nat }.
End TaskStats.

Definition computeStats (l : list Task.t) : TaskStats.t :=
  TaskStats.mk
    (length l)
    (length (filter (fun t => status_eqb (Task.status t) completed) l))
    (length (filter (fun t => status_eqb (Task.status t) in_progress) l))
    (length (filter (fun t => status_eqb (Task.status t) todo) l))
    (length (filter (fun t => status_eqb (Task.status t) review) l))
    (length (filter (fun t => priority_eqb (Task.priority t) high) l))
    (length (filter (fun t => priority_eqb (Task.priority t) medium) l))
    (length (filter (fun t => priority_eqb (Task.priority t) low) l)).

(** One slice or bar of a chart. *)
Record ChartItem := mkItem {
  item_name : string; item_value : nat; item_color : string }.

Definition statusData (stats : TaskStats.t) : list ChartItem :=
  filter (fun item => (0 <? item_value item)%nat)
    [mkItem "To Do" (TaskStats.todo stats) (getStatusColor "todo");
     mkItem "In Progress" (TaskStats.inProgress stats)
       (getStatusColor "in-progress");
     mkItem "In Review" (TaskStats.review stats) (getStatusColor "review");
     mkItem "Completed" (TaskStats.completed stats)
       (getStatusColor "completed")].

Definition priorityData (stats : TaskStats.t) : list ChartItem :=
  filter (fun item => (0 <? item_value item)%nat)
    [mkItem "Low" (TaskStats.low stats) (getPriorityColor "low");
     mkItem "Medium" (TaskStats.medium stats) (getPriorityColor "medium");
     mkItem "High" (TaskStats.high stats) (getPriorityColor "high")].

(** What [loadStats] stores with [setTaskStats], [setStatusChartData] and
    [setPriorityChartData]. *)
Record Report := mkReport {
  taskStats : TaskStats.t;
  statusChartData : list ChartItem;
  priorityChartData : list ChartItem }.

(** [ReportsPage.fetchTaskHistory]: the history rows, newest first, or the
    empty list when nobody is signed in or the backend refuses. *)
Definition fetchTaskHistory (user : option User) : M (list TaskHistory.t) :=
  match user with
  | None => ret []
  | Some _ =>
      try_catch
        (r <- supabase SelectTaskHistory
                (fun _ d =>
                   (Data (order_by (descending TaskHistory.created_at)
                            (task_history d)),
                    d)) ;;
         data <- or_throw r ;;
         ret data)
        (fun message =>
           console_error ("Error fetching task history: " ++ message) ;;;
           ret [])
  end.

(** [ReportsPage.loadStats]: the requests it sends and the figures it
    stores with [setTaskStats], [setStatusChartData] and
    [setPriorityChartData].  The completion trend and the team figures,
    which it computes after the history query from the clock and from random
    numbers, are not part of the result.  [None] is the early return, which
    stores nothing. *)
Definition loadStats (user : option User)
  (created_since : nat -> string -> bool)
  (projects : list Project.t) (selectedProject selectedPeriod : string)
  : M (option Report) :=
  if (length projects =? 0)%nat then ret None
  else
    allTasks <- collectTasks (projectsToFetch projects selectedProject) [] ;;
    let periodTasks := filterByPeriod created_since selectedPeriod allTasks in
    let stats := computeStats periodTasks in
    taskHistory <- fetchTaskHistory user ;;
    ret (Some (mkReport stats (statusData stats) (priorityData stats))).

(** The dashboard's two charts, which spell the colours out. *)
Definition dashboard_statusData (allTasksArray : list Task.t)
  : list ChartItem :=
  filter (fun item => (0 <? item_value item)%nat)
    [mkItem "To Do"
       (length (filter (fun t => status_eqb (Task.status t) todo)
                  allTasksArray)) "#94a3b8";
     mkItem "In Progress"
       (length (filter (fun t => status_eqb (Task.status t) in_progress)
                  allTasksArray)) "#3b82f6";
     mkItem "In Review"
       (length (filter (fun t => status_eqb (Task.status t) review)
                  allTasksArray)) "#f59e0b";
     mkItem "Completed"
       (length (filter (fun t => status_eqb (Task.status t) completed)
                  allTasksArray)) "#22c55e"].

Definition dashboard_priorityData (allTasksArray : list Task.t)
  : list ChartItem :=
  filter (fun item => (0 <? item_value item)%nat)
    [mkItem "Low"
       (length (filter (fun t => priority_eqb (Task.priority t) low)
                  allTasksArray)) "#3b82f6";
     mkItem "Medium"
       (length (filter (fun t => priority_eqb (Task.priority t) medium)
                  allTasksArray)) "#f59e0b";
     mkItem "High"
       (length (filter (fun t => priority_eqb (Task.priority t) high)
                  allTasksArray)) "#ef4444"].

(** ** More observations *)

Definition is_deleteProject (c : ServiceCall) : bool :=
  match c with CallDeleteProject _ => true | _ => false end.

(** The functions of the service that only read. *)
Definition is_fetch (c : ServiceCall) : bool :=
  match c with
  | CallFetchProjects | CallFetchTasks _ | CallFetchTeams
  | CallFetchUserProfile _ | CallFetchTags _ | CallFetchComments _
  | CallFetchProjectMembers _ => true
  | _ => false
  end.

Definition chart_total (items : list ChartItem) : nat :=
  fold_right (fun item n => item_value item + n) 0 items.

(** The backend is going to serve the request after the next [i]. *)
Definition served_at (i : nat) (answers : list Reply) : bool :=
  match nth_error answers i with Some (Fault _) => false | _ => true end.

(** What the project loop is to collect: for each project in turn, the
    project's rows newest first when the answer to its query is not a
    refusal, and nothing when it is. *)
Fixpoint expected_tasks (d : Db) (projects : list Project.t)
  (answers : list Reply) : list Task.t :=
  match projects with
  | [] => []
  | p :: rest =>
      ((if served_at 0 answers
        then order_by (descending Task.created_at)
               (filter (fun t => (Task.project_id t =? Project.id p)%string)
                  (tasks d))
        else [])
       ++ expected_tasks d rest (tl answers))%list
  end.

(** A task passes the board's search and priority filter. *)
Definition passes (searchTerm : string) (filters : Filters) (task : Task.t)
  : bool :=
  matchesSearch searchTerm task && matchesPriority filters task.

(** The backend is going to serve the next request. *)
Definition next_is_served (w : World) : bool :=
  match replies w with Fault _ :: _ => false | _ => true end.

Definition links (taskId tagId : string) (x : TaskTag.t) : bool :=
  (TaskTag.task_id x =? taskId)%string && (TaskTag.tag_id x =? tagId)%string.

(** The membership a user holds in a team with a role. *)
Definition is_membership (team user role : string) (m : TeamMember.t)
  : bool :=
  (TeamMember.team_id m =? team)%string
  && (TeamMember.user_id m =? user)%string
  && (TeamMember.role m =? role)%string.

(** The page's view of a stored invitation. *)
Definition page_view (r : Invitation.t) : TeamInvitation :=
  mkTeamInvitation (Invitation.id r) (Invitation.team_id r)
    (Invitation.email r) (Invitation.role r) (Invitation.status r).

(** ** Observations on worlds and traces *)

(** The events a handler added when it took [w] to [w']. *)
Definition events_since (w w' : World) : list Event :=
  skipn (length (trace w)) (trace w').

(** The backend requests among some events, in order. *)
Fixpoint backend_requests (evs : list Event) : list Request :=
  match evs with
  | [] => []
  | Backend q _ :: r => q :: backend_requests r
  | _ :: r => backend_requests r
  end.

Definition is_toast (e : Event) : bool :=
  match e with Toast _ _ => true | _ => false end.

Definition has_project (id : string) (d : Db) : bool :=
  existsb (fun p => (Project.id p =? id)%string) (projects d).

Definition has_tasks_of (id : string) (d : Db) : bool :=
  existsb (fun t => (Task.project_id t =? id)%string) (tasks d).

(** Chronological order of the timestamps of two rows: [a] is not older than
    [b]. *)
Definition not_older {A} (key : A -> string) (a b : A) : Prop :=
  (key b <=? key a)%string = true.

(** The realtime bridge in the specification's words: the list with every
    entry of identity [t] replaced by [row], the others kept, in order. *)
Inductive Replaced (t : string) (row : Task.t)
  : list Task.t -> list Task.t -> Prop :=
| Replaced_nil : Replaced t row [] []
| Replaced_hit x l l' :
    Task.id x = t -> Replaced t row l l' ->
    Replaced t row (x :: l) (row :: l')
| Replaced_miss x l l' :
    Task.id x <> t -> Replaced t row l l' ->
    Replaced t row (x :: l) (x :: l').

(** The list with exactly the entries of identity [t] removed. *)
Inductive Removed (t : string) : list Task.t -> list Task.t -> Prop :=
| Removed_nil : Removed t [] []
| Removed_hit x l l' :
    Task.id x = t -> Removed t l l' -> Removed t (x :: l) l'
| Removed_miss x l l' :
    Task.id x <> t -> Removed t l l' -> Removed t (x :: l) (x :: l').

(** An accepted invitation carries its acceptance time. *)
Definition stamped (r : Invitation.t) : Prop :=
  Invitation.status r = "accepted" -> Invitation.accepted_at r <> None.

Definition accepted_stamped (d : Db) : Prop :=
  Forall stamped (team_invitations d).

(** A request that sets an invitation's status to accepted sets the
    acceptance time in the same update. *)
Definition request_stamped (q : Request) : Prop :=
  match q with
  | UpdateInvitation _ u =>
      Invitation.p_status u = Some "accepted" ->
      Invitation.p_accepted_at u <> None
  | _ => True
  end.

Definition event_stamped (e : Event) : Prop :=
  match e with Backend q _ => request_stamped q | _ => True end.

Definition invitations_sound (w : World) : Prop :=
  accepted_stamped (db w) /\ Forall event_stamped (trace w).

(** A computation keeps a property of worlds. *)
Definition keeps (I : World -> Prop) {A} (m : M A) : Prop :=
  forall w, I w -> I (snd (m w)).

(** ** Example worlds *)

Definition task1 : Task.t :=
  Task.mk "t1" "Write report" None todo high None "p1" "u1"
    "2025-03-01T10:00:00Z" "2025-03-01T10:00:00Z".
Definition task2 : Task.t :=
  Task.mk "t2" "Review report" (Some "second pass") review low None "p1"
    "u1" "2025-03-02T10:00:00Z" "2025-03-02T10:00:00Z".
Definition task3 : Task.t :=
  Task.mk "t3" "Other project" None todo medium None "p2" "u1"
    "2025-03-03T10:00:00Z" "2025-03-03T10:00:00Z".
Definition project1 : Project.t :=
  Project.mk "p1" "Alpha" None "u1"
    "2025-02-01T10:00:00Z" "2025-02-01T10:00:00Z".
Definition project2 : Project.t :=
  Project.mk "p2" "Beta" None "u1"
    "2025-02-02T10:00:00Z" "2025-02-02T10:00:00Z".
Definition invitation1 : Invitation.t :=
  Invitation.mk "i1" "team1" "ann@example.com" "member" "pending" "tok1"
    "u1" None.

Definition db1 : Db :=
  mkDb [project1; project2] [task1; task2; task3] [] [] [invitation1]
    [] [] [] [] [] [].

Definition served : Reply := Served (mkGen "new" "tok" "2025-04-01T00:00:00Z").

Definition world1 (answers : list Reply) : World := mkWorld db1 answers [].

Definition no_filters : Filters := mkFilters [] [].

Definition ann : User := mkUser "u2" (Some "ann@example.com").
Definition bob : User := mkUser "u3" (Some "bob@example.com").
Definition page_invitation1 : TeamInvitation :=
  mkTeamInvitation "i1" "team1" "ann@example.com" "member" "pending".

(** * Proofs *)

Open Scope list_scope.
Unset Implicit Arguments.

(** ** The examples, run *)

Example fetchProjects_world1 :
  fst (fetchProjects (world1 [served])) = Returned [project2; project1].
Proof. reflexivity. Qed.

Example fetchTasks_world1 :
  fst (fetchTasks "p1" (world1 [served])) = Returned [task2; task1].
Proof. reflexivity. Qed.

Example deleteProject_world1 :
  deleteProject "p1" (world1 [served; Fault "denied"])
  = (Returned false,
     mkWorld (with_tasks (fun _ => [task3]) db1) []
       [Backend (DeleteProjectTasks "p1") None;
        Backend (DeleteProject "p1") (Some "denied");
        Toast error "Error deleting project: denied"]).
Proof. reflexivity. Qed.

Example filteredTasks_search :
  filteredTasks "SECOND" no_filters [task1; task2; task3] = [task2].
Proof. reflexivity. Qed.

Example handleAccept_world1 :
  trace (snd (handleAccept (Some ann) (Some page_invitation1)
                "2025-04-02T00:00:00Z" (world1 [served; served])))
  = [SetFlag "isAccepting" true;
     Backend (InsertTeamMember (TeamMember.mkFresh "team1" "u2" "member"))
       None;
     Backend (UpdateInvitation "i1"
                (Invitation.mkPartial (Some "accepted")
                   (Some "2025-04-02T00:00:00Z"))) None;
     Toast success "You have successfully joined the team!";
     Navigate "/teams";
     SetFlag "isAccepting" false].
Proof. reflexivity. Qed.

(** ** Lists, sorting and traces *)

Lemma events_since_app (w w' : World) (evs : list Event) :
  trace w' = trace w ++ evs -> events_since w w' = evs.
Proof.
  intros H. unfold events_since. rewrite H.
  rewrite skipn_app, skipn_all, Nat.sub_diag. reflexivity.
Qed.

Lemma insert_by_perm {A} (le : A -> A -> bool) (x : A) (l : list A) :
  Permutation (insert_by le x l) (x :: l).
Proof.
  induction l as [|y l IH]; simpl.
  - reflexivity.
  - destruct (le x y).
    + reflexivity.
    + rewrite IH. apply perm_swap.
Qed.

Lemma order_by_perm {A} (le : A -> A -> bool) (l : list A) :
  Permutation (order_by le l) l.
Proof.
  induction l as [|x l IH]; simpl.
  - reflexivity.
  - rewrite insert_by_perm. now constructor.
Qed.

Section Ordered.
Variable A : Type.
Variable le : A -> A -> bool.
Hypothesis le_total : forall a b, le a b = false -> le b a = true.
Hypothesis le_trans :
  forall a b c, le a b = true -> le b c = true -> le a c = true.

Let R (a b : A) : Prop := le a b = true.

Lemma insert_by_sorted (x : A) (l : list A) :
  StronglySorted R l -> StronglySorted R (insert_by le x l).
Proof.
  induction 1 as [|y l Hs IH Hy]; simpl.
  - repeat constructor.
  - destruct (le x y) eqn:E.
    + constructor.
      * now constructor.
      * constructor; [exact E|].
        eapply Forall_impl; [|exact Hy].
        intros z Hz. eapply le_trans; eassumption.
    + constructor; [exact IH|].
      eapply Permutation_Forall.
      * symmetry. apply insert_by_perm.
      * constructor; [now apply le_total | exact Hy].
Qed.

Lemma order_by_sorted (l : list A) : StronglySorted R (order_by le l).
Proof.
  induction l as [|x l IH]; simpl.
  - constructor.
  - now apply insert_by_sorted.
Qed.
End Ordered.

Lemma string_leb_total (a b : string) :
  (a <=? b)%string = false -> (b <=? a)%string = true.
Proof.
  intros H. destruct (String.leb_total a b) as [E|E]; congruence.
Qed.

Lemma string_leb_trans (a b c : string) :
  (a <=? b)%string = true -> (b <=? c)%string = true ->
  (a <=? c)%string = true.
Proof.
  unfold String.leb. intros Hab Hbc.
  destruct (String.compare a b) eqn:E1; try discriminate;
    destruct (String.compare b c) eqn:E2; try discriminate.
  - apply String_as_OT.cmp_eq in E2. subst. now rewrite E1.
  - apply String_as_OT.cmp_eq in E1. subst. now rewrite E2.
  - apply String_as_OT.cmp_eq in E2. subst. now rewrite E1.
  - apply String_as_OT.cmp_lt in E1, E2.
    pose proof (String_as_OT.lt_trans _ _ _ E1 E2) as H.
    apply String_as_OT.cmp_lt in H. unfold String_as_OT.cmp in H.
    now rewrite H.
Qed.

Lemma order_by_descending {A} (key : A -> string) (l : list A) :
  StronglySorted (not_older key) (order_by (descending key) l).
Proof.
  apply order_by_sorted; unfold descending; intros.
  - now apply string_leb_total.
  - eapply string_leb_trans; eassumption.
Qed.

(** ** The data-access layer *)

(** C3: every task [fetchTasks p] returns belongs to project [p]; the call
    always returns a list, whatever the backend answers. *)
Theorem fetchTasks_project_id (p : string) (w : World) :
  exists l, fst (fetchTasks p w) = Returned l
            /\ Forall (fun t => Task.project_id t = p) l.
Proof.
  unfold fetchTasks, try_catch, bind, supabase.
  destruct (replies w) as [|[m|g] rest]; simpl.
  2: { eexists; split; [reflexivity | constructor]. }
  all: eexists; (split; [reflexivity|]);
    eapply Permutation_Forall; [symmetry; apply order_by_perm|];
    apply Forall_forall; intros t Ht; apply filter_In in Ht;
    now apply String.eqb_eq.
Qed.

(** C10: [fetchProjects] returns the projects newest first: when the backend
    serves the request, the list it returns holds exactly the rows of the
    table, in descending order of [created_at]; when the backend refuses,
    it returns the empty list after the error toast. *)
Theorem fetchProjects_newest_first (w : World) :
  exists l, fst (fetchProjects w) = Returned l
    /\ StronglySorted (not_older Project.created_at) l
    /\ (next_is_served w = true ->
        Permutation l (projects (db w))
        /\ events_since w (snd (fetchProjects w))
           = [Backend SelectProjects None])
    /\ (next_is_served w = false ->
        exists m, l = []
          /\ events_since w (snd (fetchProjects w))
             = [Backend SelectProjects (Some m);
                Toast error ("Error fetching projects: " ++ m)%string]).
Proof.
  unfold fetchProjects, try_catch, bind, supabase, next_is_served.
  destruct (replies w) as [|[m|g] rest]; simpl.
  2: { eexists; repeat split; [constructor | discriminate | discriminate |].
       intros _. exists m. split; [reflexivity|].
       apply events_since_app. simpl. now rewrite <- app_assoc. }
  all: eexists; split; [reflexivity|]; split;
    [apply order_by_descending|]; split; [|discriminate]; intros _; split;
    [apply order_by_perm|];
    erewrite events_since_app by reflexivity; reflexivity.
Qed.

Lemma fetchProjects_newest_first_witness :
  exists l, fst (fetchProjects (world1 [served])) = Returned l
    /\ StronglySorted (not_older Project.created_at) l
    /\ Permutation l (projects (db (world1 [served])))
    /\ events_since (world1 [served]) (snd (fetchProjects (world1 [served])))
       = [Backend SelectProjects None].
Proof.
  destruct (fetchProjects_newest_first (world1 [served]))
    as (l & Hl & Hs & Hserved & _).
  exists l. split; [exact Hl|]. split; [exact Hs|].
  apply Hserved. reflexivity.
Defined.

Lemma existsb_filter_negb {A} (p : A -> bool) (l : list A) :
  existsb p (filter (fun x => negb (p x)) l) = false.
Proof.
  induction l as [|x l IH]; simpl; [reflexivity|].
  destruct (p x) eqn:E; simpl; [exact IH|].
  now rewrite E.
Qed.

(** C1: [deleteProject id] deletes the project's tasks first and the project
    only after that request succeeded.  It has three outcomes: the task
    deletion is refused (nothing is deleted, no project deletion is sent,
    the result is false); the project deletion is refused (the tasks are
    gone, the project remains, the result is false); both are served.  So a
    project is never removed while tasks of it remain, and the outcome with
    the tasks removed and the project still there does occur. *)
Theorem deleteProject_two_steps :
  (forall (id : string) (w : World),
      let r := fst (deleteProject id w) in
      let w' := snd (deleteProject id w) in
      let without_tasks :=
        with_tasks (filter (fun t => negb (Task.project_id t =? id)%string))
          (db w) in
      ((exists m,
           events_since w w'
           = [Backend (DeleteProjectTasks id) (Some m);
              Toast error ("Error deleting project: " ++ m)%string]
           /\ r = Returned false /\ db w' = db w)
       \/ (exists m,
              events_since w w'
              = [Backend (DeleteProjectTasks id) None;
                 Backend (DeleteProject id) (Some m);
                 Toast error ("Error deleting project: " ++ m)%string]
              /\ r = Returned false /\ db w' = without_tasks)
       \/ (events_since w w'
           = [Backend (DeleteProjectTasks id) None;
              Backend (DeleteProject id) None;
              Toast success "Project deleted successfully!"]
           /\ r = Returned true
           /\ db w'
              = with_projects
                  (filter (fun p => negb (Project.id p =? id)%string))
                  without_tasks))
      /\ (has_project id (db w) = true ->
          has_project id (db w') = false ->
          has_tasks_of id (db w') = false))
  /\ (exists (id : string) (w : World),
         has_project id (db w) = true
         /\ has_tasks_of id (db w) = true
         /\ fst (deleteProject id w) = Returned false
         /\ has_project id (db (snd (deleteProject id w))) = true
         /\ has_tasks_of id (db (snd (deleteProject id w))) = false).
Proof.
  split.
  - intros id w r w' without_tasks.
    assert (Hcases :
      (exists m, trace w' = trace w ++
           [Backend (DeleteProjectTasks id) (Some m);
            Toast error ("Error deleting project: " ++ m)%string]
         /\ r = Returned false /\ db w' = db w)
      \/ (exists m, trace w' = trace w ++
           [Backend (DeleteProjectTasks id) None;
            Backend (DeleteProject id) (Some m);
            Toast error ("Error deleting project: " ++ m)%string]
         /\ r = Returned false /\ db w' = without_tasks)
      \/ (trace w' = trace w ++
           [Backend (DeleteProjectTasks id) None;
            Backend (DeleteProject id) None;
            Toast success "Project deleted successfully!"]
         /\ r = Returned true
         /\ db w' = with_projects
                      (filter (fun p => negb (Project.id p =? id)%string))
                      without_tasks)).
    { subst r w' without_tasks.
      unfold deleteProject, try_catch, bind, supabase.
      destruct (replies w) as [|[m|g] [|[m'|g'] rest]]; simpl;
        rewrite <- ?app_assoc; simpl;
        solve [ left; eexists; repeat split
              | right; left; eexists; repeat split
              | right; right; repeat split ]. }
    split.
    + destruct Hcases as [(m & Ht & Hr & Hd) | [(m & Ht & Hr & Hd)
                         | (Ht & Hr & Hd)]];
        rewrite (events_since_app _ _ _ Ht); eauto 6.
    + intros Hbefore Hafter.
      destruct Hcases as [(m & _ & _ & Hd) | [(m & _ & _ & Hd)
                         | (_ & _ & Hd)]]; rewrite Hd in *.
      * congruence.
      * unfold has_project, without_tasks in *. simpl in *. congruence.
      * unfold has_tasks_of, without_tasks. simpl.
        apply existsb_filter_negb with
          (p := fun t => (Task.project_id t =? id)%string).
  - exists "p1", (world1 [served; Fault "denied"]).
    repeat split.
Qed.

Lemma deleteProject_two_steps_witness :
  has_project "p1" (db (world1 [])) = true
  /\ has_project "p1" (db (snd (deleteProject "p1" (world1 [])))) = false
  /\ has_tasks_of "p1" (db (snd (deleteProject "p1" (world1 [])))) = false.
Proof.
  split; [reflexivity|]. split; [reflexivity|].
  apply (proj2 (proj1 deleteProject_two_steps "p1" (world1 [])));
    reflexivity.
Defined.

(** Unfolds a service function down to the reply it consumes. *)
Ltac unfold_service :=
  unfold service, shaped, fetchProjects, createProject, updateProject,
    deleteProject, fetchTasks, createTask, updateTaskStatus, updateTask,
    deleteTask, fetchTeams, createTeam, addTeamMember, fetchUserProfile,
    updateUserProfile, fetchTags, createTag, addTagToTask, removeTagFromTask,
    fetchComments, createComment, addProjectMember, fetchProjectMembers,
    try_catch, bind, supabase, or_throw, toast_error, toast_success,
    console_error, emit, ret, throw.

(** Splits on the backend's answers and on what a served request finds. *)
Ltac split_replies w :=
  destruct (replies w) as [|[?m|?g] [|[?m|?g] ?rest]]; simpl;
  repeat match goal with
    | |- context [update_single ?p ?f ?l] =>
        destruct (update_single p f l) as [[?m|?x] ?l0]; simpl
    | |- context [single ?l] => destruct (single l) as [?m|?x]; simpl
    | |- context [insert_team_member ?m ?g ?d] =>
        destruct (insert_team_member m g d) as [?row ?d0]; simpl
    end.

Lemma service_cases (c : ServiceCall) (w : World) :
  exists (s : Shape) (evs : list Event),
    fst (service c w) = Returned s
    /\ trace (snd (service c w)) = trace w ++ evs
    /\ forall q m, In (Backend q (Some m)) evs ->
         s = Nothing
         /\ exists pre,
             evs = pre ++
               [if is_fetchUserProfile c
                then ConsoleError (failure_label c ++ m)%string
                else Toast error (failure_label c ++ m)%string]
             /\ (is_fetchUserProfile c = true ->
                 existsb is_toast evs = false).
Proof.
  destruct c; unfold_service; split_replies w;
    rewrite <- ?app_assoc; simpl;
    (do 2 eexists; split; [reflexivity|]; split; [reflexivity|]);
    intros q e Hin; simpl in Hin;
    repeat match goal with
      | H : _ \/ _ |- _ => destruct H
      | H : False |- _ => destruct H
      | H : Backend _ _ = Backend _ _ |- _ => inversion H; clear H; subst
      | H : _ = Backend _ _ |- _ => discriminate H
      end;
    (split; [reflexivity|]);
    first [ exists []; split; [reflexivity | intros; reflexivity || discriminate]
          | eexists [_]; split; [reflexivity | intros; reflexivity || discriminate]
          | eexists [_; _]; split; [reflexivity | intros; reflexivity || discriminate] ].
Qed.

(** C4 (as amended): no service function lets a backend error escape, and
    when a backend request of the call fails the function returns its null,
    empty or false value; every function but [fetchUserProfile] then ends
    with an error toast made of its label and the backend's message, while
    [fetchUserProfile] writes that text to the console and shows no toast. *)
Theorem service_failure_is_absorbed (c : ServiceCall) (w : World) :
  (exists s, fst (service c w) = Returned s)
  /\ forall q m,
      In (Backend q (Some m)) (events_since w (snd (service c w))) ->
      fst (service c w) = Returned Nothing
      /\ exists pre,
          events_since w (snd (service c w))
          = pre ++
              [if is_fetchUserProfile c
               then ConsoleError (failure_label c ++ m)%string
               else Toast error (failure_label c ++ m)%string]
          /\ (is_fetchUserProfile c = true ->
              existsb is_toast (events_since w (snd (service c w))) = false).
Proof.
  destruct (service_cases c w) as (s & evs & Hr & Ht & Hfail).
  rewrite (events_since_app _ _ _ Ht). split.
  - eauto.
  - intros q m Hin. destruct (Hfail q m Hin) as (-> & pre & He & Hsilent).
    split; [exact Hr|]. exists pre. split; assumption.
Qed.

Lemma service_failure_is_absorbed_witness :
  fst (service CallFetchProjects (world1 [Fault "down"])) = Returned Nothing
  /\ exists pre,
      events_since (world1 [Fault "down"])
        (snd (service CallFetchProjects (world1 [Fault "down"])))
      = pre ++ [Toast error "Error fetching projects: down"]
      /\ (false = true ->
          existsb is_toast
            (events_since (world1 [Fault "down"])
               (snd (service CallFetchProjects (world1 [Fault "down"]))))
          = false).
Proof.
  apply (proj2 (service_failure_is_absorbed CallFetchProjects
                  (world1 [Fault "down"])) SelectProjects "down").
  simpl. left. reflexivity.
Defined.

(** C4 as stated fails: when the backend refuses [fetchUserProfile]'s
    request, the function returns null and logs to the console, and no toast
    is shown. *)
Lemma fetchUserProfile_failure_shows_no_toast :
  fst (fetchUserProfile "u1" (world1 [Fault "down"])) = Returned None
  /\ trace (snd (fetchUserProfile "u1" (world1 [Fault "down"])))
     = [Backend (SelectUserProfile "u1") (Some "down");
        ConsoleError "Error fetching user profile: down"]
  /\ existsb is_toast
       (trace (snd (fetchUserProfile "u1" (world1 [Fault "down"]))))
     = false.
Proof. repeat split. Qed.

(** ** The Kanban board *)

Lemma status_eqb_eq (a b : Status) : status_eqb a b = true <-> a = b.
Proof. destruct a, b; simpl; split; congruence. Qed.

Lemma single_data {A} (l : list A) (x : A) : single l = Data x -> l = [x].
Proof.
  destruct l as [|y [|z l]]; simpl; intros H; try discriminate.
  now inversion H.
Qed.

Lemma update_single_data {A} (p : A -> bool) (f : A -> A) (l l' : list A)
  (x : A) :
  update_single p f l = (Data x, l') ->
  l' = map (fun r => if p r then f r else r) l
  /\ exists r, In r l /\ p r = true /\ x = f r.
Proof.
  unfold update_single. destruct (single _) as [m|y] eqn:E; intros H;
    inversion H; subst. split; [reflexivity|].
  apply single_data in E.
  destruct (filter p l) as [|r [|? ?]] eqn:F; try discriminate.
  inversion E; subst. exists r.
  assert (Hr : In r (filter p l)) by (rewrite F; now left).
  apply filter_In in Hr. tauto.
Qed.

(** After a served status update, the task of that identity is in the
    table and every task of that identity has the new status. *)
Lemma update_status_rows (id : string) (s : Status) (l l' : list Task.t)
  (x : Task.t) :
  update_single (fun t => (Task.id t =? id)%string)
    (apply_task (Task.only_status s)) l = (Data x, l') ->
  (exists t, In t l' /\ Task.id t = id)
  /\ forall t, In t l' -> Task.id t = id -> Task.status t = s.
Proof.
  intros H. apply update_single_data in H.
  destruct H as (-> & r & Hin & Hp & _). split.
  - exists (apply_task (Task.only_status s) r). split.
    + apply in_map_iff. exists r. now rewrite Hp.
    + simpl. now apply String.eqb_eq.
  - intros t Ht Hid. apply in_map_iff in Ht.
    destruct Ht as (r' & <- & _).
    destruct (Task.id r' =? id)%string eqn:E; [reflexivity|].
    apply String.eqb_neq in E. contradiction.
Qed.

(** C2 (as amended): a drop of a card on the column it already is in sends
    nothing; a drop of a card the board shows on a column of another status
    sends exactly one request, the status update of that task to the
    column's status, and when the backend serves it the task is in the table
    with the column's status. *)
Theorem board_drop_status_update (searchTerm : string) (filters : Filters)
  (board : list Task.t) (status : Status) (d : DragData) (w : World) :
  let w' := snd (board_drop searchTerm filters board status (Some d) w) in
  (drag_status d = status ->
   backend_requests (events_since w w') = [] /\ db w' = db w)
  /\ (drag_status d <> status ->
      (exists t, In t (filteredTasks searchTerm filters board)
                 /\ Task.id t = drag_id d) ->
      backend_requests (events_since w w')
      = [UpdateTask (drag_id d) (Task.only_status status)]
      /\ (In (Backend (UpdateTask (drag_id d) (Task.only_status status)) None)
            (events_since w w') ->
          (exists t, In t (tasks (db w')) /\ Task.id t = drag_id d)
          /\ forall t, In t (tasks (db w')) -> Task.id t = drag_id d ->
                       Task.status t = status)).
Proof.
  intros w'. subst w'. unfold board_drop, handleDrop. split.
  - intros E. apply status_eqb_eq in E. unfold bind, emit. simpl.
    rewrite E. simpl. erewrite events_since_app by reflexivity.
    split; reflexivity.
  - intros Hne (t & Hin & Hid).
    assert (E : status_eqb (drag_status d) status = false).
    { destruct (status_eqb _ _) eqn:E; [|reflexivity].
      apply status_eqb_eq in E. contradiction. }
    unfold bind at 1. unfold emit at 1. simpl. rewrite E. simpl.
    destruct (find (fun t0 => (Task.id t0 =? drag_id d)%string)
                (filteredTasks searchTerm filters board)) as [full|] eqn:F.
    2: { apply find_none with (x := t) in F; [|exact Hin].
         apply String.eqb_neq in F. contradiction. }
    apply find_some in F. destruct F as [_ F]. apply String.eqb_eq in F.
    unfold handleTaskDrop, updateTaskStatus. rewrite F.
    unfold updateTask, try_catch, bind, supabase, or_throw, toast_error,
      toast_success, console_error, emit, ret, throw. simpl.
    destruct (replies w) as [|[m|g] rest]; simpl;
      try (destruct (update_single _ _ _) as [[m1|x] l1] eqn:U; simpl);
      rewrite <- ?app_assoc; simpl;
      (erewrite events_since_app by reflexivity); simpl;
      (split; [reflexivity|]); intros Hserved;
      try (eapply update_status_rows; exact U);
      repeat match goal with
        | H : _ \/ _ |- _ => destruct H
        | H : False |- _ => destruct H
        | H : _ = Backend _ _ |- _ => discriminate H
        end.
Qed.

Lemma board_drop_status_update_witness :
  backend_requests
    (events_since (world1 [served])
       (snd (board_drop "" no_filters [task1; task2] review
               (Some (handleDragStart task1)) (world1 [served]))))
  = [UpdateTask "t1" (Task.only_status review)]
  /\ (In (Backend (UpdateTask "t1" (Task.only_status review)) None)
        (events_since (world1 [served])
           (snd (board_drop "" no_filters [task1; task2] review
                   (Some (handleDragStart task1)) (world1 [served])))) ->
      (exists t,
          In t (tasks (db (snd (board_drop "" no_filters [task1; task2]
                                  review (Some (handleDragStart task1))
                                  (world1 [served])))))
          /\ Task.id t = "t1")
      /\ forall t,
          In t (tasks (db (snd (board_drop "" no_filters [task1; task2]
                                  review (Some (handleDragStart task1))
                                  (world1 [served]))))) ->
          Task.id t = "t1" -> Task.status t = review).
Proof.
  apply (proj2 (board_drop_status_update "" no_filters [task1; task2] review
                  (handleDragStart task1) (world1 [served]))).
  - simpl. discriminate.
  - exists task1. split; [simpl; now left | reflexivity].
Defined.

(** C2 as stated fails: a card dropped on the column it is already in
    changes nothing and no status update is sent. *)
Lemma drop_on_own_column_sends_nothing :
  backend_requests
    (trace (snd (board_drop "" no_filters [task1; task2] todo
                   (Some (handleDragStart task1)) (world1 [served]))))
  = [].
Proof. reflexivity. Qed.

Lemma filter_true {A} (f : A -> bool) (l : list A) :
  (forall x, In x l -> f x = true) -> filter f l = l.
Proof.
  induction l as [|x l IH]; simpl; intros H; [reflexivity|].
  rewrite (H x (or_introl eq_refl)). f_equal. apply IH. auto.
Qed.

(** C5: with an empty search term, the priority filter {high} keeps exactly
    the tasks of priority high, in their order, and the filter with all three
    priorities keeps the same tasks as the empty filter, which keeps all. *)
Theorem priority_filter_laws (tags : list string) (board : list Task.t) :
  (forall t, In t (filteredTasks "" (mkFilters ["high"] tags) board)
             <-> In t board /\ Task.priority t = high)
  /\ filteredTasks "" (mkFilters ["high"] tags) board
     = filter (fun t => match Task.priority t with
                        | high => true | _ => false end) board
  /\ filteredTasks "" (mkFilters ["low"; "medium"; "high"] tags) board
     = filteredTasks "" (mkFilters [] tags) board
  /\ filteredTasks "" (mkFilters [] tags) board = board
  /\ (forall selected,
        (forall p, In (priority_str p) selected) ->
        filteredTasks "" (mkFilters selected tags) board = board).
Proof.
  assert (Hhigh : filteredTasks "" (mkFilters ["high"] tags) board
     = filter (fun t => match Task.priority t with
                        | high => true | _ => false end) board).
  { unfold filteredTasks. apply filter_ext. intros t.
    unfold matchesPriority. simpl. now destruct (Task.priority t). }
  assert (Hnone : filteredTasks "" (mkFilters [] tags) board = board).
  { unfold filteredTasks. apply filter_true. reflexivity. }
  repeat split.
  - rewrite Hhigh in H. apply filter_In in H. tauto.
  - rewrite Hhigh in H. apply filter_In in H.
    destruct H as [_ H]. now destruct (Task.priority t).
  - intros [Hin Hp]. rewrite Hhigh. apply filter_In. now rewrite Hp.
  - exact Hhigh.
  - rewrite Hnone. unfold filteredTasks. apply filter_true. intros t _.
    unfold matchesPriority. simpl. now destruct (Task.priority t).
  - exact Hnone.
  - intros selected Hall. unfold filteredTasks. apply filter_true.
    intros t _. unfold matchesPriority. simpl.
    apply orb_true_iff. right. unfold array_includes.
    apply existsb_exists. exists (priority_str (Task.priority t)).
    split; [apply Hall | apply String.eqb_refl].
Qed.

Lemma priority_filter_laws_witness :
  filteredTasks "" (mkFilters ["high"; "low"; "medium"] [])
    [task1; task2; task3]
  = [task1; task2; task3].
Proof.
  apply (proj2 (proj2 (proj2 (proj2
           (priority_filter_laws [] [task1; task2; task3]))))).
  intros p. destruct p; simpl; auto.
Defined.

Lemma filter_status_partition (l : list Task.t) :
  length (column_cards todo l) + length (column_cards in_progress l)
  + length (column_cards review l) + length (column_cards completed l)
  = length l.
Proof.
  unfold column_cards.
  induction l as [|t l IH]; simpl; [reflexivity|].
  destruct (Task.status t); simpl; lia.
Qed.

(** C8: on the board, a task that passes the filters is rendered by the
    column of its own status and by no other of the four columns, and the
    four column counts add up to the number of tasks that pass the filters;
    each count is the number of cards its column renders. *)
Theorem columns_partition_tasks (searchTerm : string) (filters : Filters)
  (board : list Task.t) :
  let shown := filteredTasks searchTerm filters board in
  map snd columns = [todo; in_progress; review; completed]
  /\ (forall t s, In t shown ->
        (In t (column_cards s shown) <-> s = Task.status t))
  /\ (forall t, In t shown ->
        exists c, In c columns /\ In t (column_cards (snd c) shown)
                  /\ forall c', In c' columns ->
                       In t (column_cards (snd c') shown) -> c' = c)
  /\ columnCounts shown todo + columnCounts shown in_progress
     + columnCounts shown review + columnCounts shown completed
     = length shown
  /\ forall s, columnCounts shown s = length (column_cards s shown).
Proof.
  intros shown.
  assert (Hcol : forall t s, In t shown ->
            (In t (column_cards s shown) <-> s = Task.status t)).
  { intros t s Hin. unfold column_cards. rewrite filter_In, status_eqb_eq.
    split; [intros [_ H]; now symmetry | intros ->; now split]. }
  split; [reflexivity|]. split; [exact Hcol|]. split; [|split].
  - intros t Hin.
    assert (Hc : exists c, In c columns /\ snd c = Task.status t).
    { unfold columns. destruct (Task.status t); simpl; eauto 10. }
    destruct Hc as (c & Hc & Hs). exists c. split; [exact Hc|]. split.
    + apply Hcol; [exact Hin | exact Hs].
    + intros c' Hc' Hin'. apply Hcol in Hin'; [|exact Hin].
      unfold columns in Hc, Hc'. simpl in Hc, Hc'.
      repeat match goal with
        | H : _ \/ _ |- _ => destruct H
        | H : False |- _ => destruct H
        end; subst; simpl in *; congruence.
  - rewrite <- (filter_status_partition shown). reflexivity.
  - intros s. now destruct s.
Qed.

Lemma columns_partition_tasks_witness :
  In task2 (column_cards review (filteredTasks "" no_filters [task1; task2]))
  <-> review = Task.status task2.
Proof.
  apply (proj1 (proj2 (columns_partition_tasks "" no_filters
                         [task1; task2]))).
  simpl. right. left. reflexivity.
Defined.

(** ** The realtime bridge *)

(** C7: on UPDATE the handler yields the previous list with every entry of
    the notified row's identity replaced by that row and the others kept, in
    order; on DELETE it yields the previous list without the entries of the
    old identity. *)
Theorem tasks_handler_by_id (prev : list Task.t) :
  (forall row, Replaced (Task.id row) row prev (tasks_handler (UPDATE row) prev))
  /\ (forall t, Removed t prev (tasks_handler (DELETE t) prev)).
Proof.
  split.
  - intros row. induction prev as [|x l IH]; simpl.
    + constructor.
    + destruct (Task.id x =? Task.id row)%string eqn:E.
      * apply String.eqb_eq in E. now constructor.
      * apply String.eqb_neq in E. now constructor.
  - intros t. induction prev as [|x l IH]; simpl.
    + constructor.
    + destruct (Task.id x =? t)%string eqn:E; simpl.
      * apply String.eqb_eq in E. now constructor.
      * apply String.eqb_neq in E. now constructor.
Qed.

Example tasks_handler_update :
  tasks_handler
    (UPDATE (Task.mk "t1" "Write report" None completed high None "p1" "u1"
               "2025-03-01T10:00:00Z" "2025-03-05T10:00:00Z"))
    [task2; task1]
  = [task2;
     Task.mk "t1" "Write report" None completed high None "p1" "u1"
       "2025-03-01T10:00:00Z" "2025-03-05T10:00:00Z"].
Proof. reflexivity. Qed.

Example tasks_handler_delete :
  tasks_handler (DELETE "t2") [task2; task1] = [task1].
Proof. reflexivity. Qed.

(** ** Team invitations *)

Lemma email_matches_false (user : User) (invitation : TeamInvitation) :
  user_email user <> Some (inv_email invitation) ->
  email_matches user invitation = false.
Proof.
  unfold email_matches. destruct (user_email user) as [e|]; [|reflexivity].
  intros H. apply String.eqb_neq. congruence.
Qed.

(** C9: when the signed-in user's email is not the invitation's,
    [handleAccept] sends no request at all: it raises the accepting flag,
    shows the error toast and lowers the flag, and the backend's tables and
    pending answers are as before. *)
Theorem handleAccept_other_email (user : User) (invitation : TeamInvitation)
  (now : string) (w : World) :
  user_email user <> Some (inv_email invitation) ->
  handleAccept (Some user) (Some invitation) now w
  = (Returned tt,
     mkWorld (db w) (replies w)
       (trace w ++
          [SetFlag "isAccepting" true;
           Toast error "This invitation was sent to a different email address";
           SetFlag "isAccepting" false]))
  /\ backend_requests
       (events_since w (snd (handleAccept (Some user) (Some invitation) now w)))
     = [].
Proof.
  intros H. apply email_matches_false in H.
  assert (E : handleAccept (Some user) (Some invitation) now w
    = (Returned tt,
       mkWorld (db w) (replies w)
         (trace w ++
            [SetFlag "isAccepting" true;
             Toast error
               "This invitation was sent to a different email address";
             SetFlag "isAccepting" false]))).
  { unfold handleAccept, try_finally, try_catch, bind, emit, toast_error.
    simpl. rewrite H. simpl. unfold emit. simpl.
    now rewrite <- !app_assoc. }
  split; [exact E|]. rewrite E. simpl.
  erewrite events_since_app by reflexivity. reflexivity.
Qed.

Lemma handleAccept_other_email_witness :
  handleAccept (Some bob) (Some page_invitation1) "2025-04-02T00:00:00Z"
    (world1 [served; served])
  = (Returned tt,
     mkWorld db1 [served; served]
       [SetFlag "isAccepting" true;
        Toast error "This invitation was sent to a different email address";
        SetFlag "isAccepting" false])
  /\ backend_requests
       (events_since (world1 [served; served])
          (snd (handleAccept (Some bob) (Some page_invitation1)
                  "2025-04-02T00:00:00Z" (world1 [served; served]))))
     = [].
Proof.
  apply (handleAccept_other_email bob page_invitation1
           "2025-04-02T00:00:00Z" (world1 [served; served])).
  simpl. discriminate.
Defined.

(** *** What every handler keeps *)

Section Keeps.
Variable I : World -> Prop.

Lemma keeps_ret {A} (a : A) : keeps I (ret a).
Proof. intros w H. exact H. Qed.

Lemma keeps_throw {A} (e : string) : keeps I (@throw A e).
Proof. intros w H. exact H. Qed.

Lemma keeps_or_throw {A} (r : Result A) : keeps I (or_throw r).
Proof. destruct r; [apply keeps_throw | apply keeps_ret]. Qed.

Lemma keeps_bind {A B} (m : M A) (k : A -> M B) :
  keeps I m -> (forall a, keeps I (k a)) -> keeps I (bind m k).
Proof.
  intros Hm Hk w H. unfold bind. specialize (Hm w H).
  destruct (m w) as [[e|a] w1]; simpl in *; [exact Hm|].
  now apply Hk.
Qed.

Lemma keeps_try_catch {A} (body : M A) (handler : string -> M A) :
  keeps I body -> (forall e, keeps I (handler e)) ->
  keeps I (try_catch body handler).
Proof.
  intros Hb Hh w H. unfold try_catch. specialize (Hb w H).
  destruct (body w) as [[e|a] w1]; simpl in *; [|exact Hb].
  now apply Hh.
Qed.

Lemma keeps_try_finally {A} (body : M A) (fin : M unit) :
  keeps I body -> keeps I fin -> keeps I (try_finally body fin).
Proof.
  intros Hb Hf w H. unfold try_finally. specialize (Hb w H).
  destruct (body w) as [r w1]; simpl in *. specialize (Hf w1 Hb).
  destruct (fin w1) as [[e|[]] w2]; exact Hf.
Qed.
End Keeps.

Lemma keeps_emit (e : Event) :
  event_stamped e -> keeps invitations_sound (emit e).
Proof.
  intros He w [Hd Ht]. split; [exact Hd|]. simpl.
  apply Forall_app. split; [exact Ht | now constructor].
Qed.

Lemma keeps_supabase {A} (q : Request) (exec : Gen -> Db -> Result A * Db) :
  request_stamped q ->
  (forall g d, accepted_stamped d -> accepted_stamped (snd (exec g d))) ->
  keeps invitations_sound (supabase q exec).
Proof.
  intros Hq He w [Hd Ht]. unfold supabase.
  assert (Hev : forall err, Forall event_stamped (trace w ++ [Backend q err])).
  { intros err. apply Forall_app. split; [exact Ht | now constructor]. }
  destruct (replies w) as [|[m|g] rest].
  - specialize (He default_gen (db w) Hd).
    destruct (exec default_gen (db w)) as [r d]. split; [exact He|apply Hev].
  - split; [exact Hd | apply Hev].
  - specialize (He g (db w) Hd).
    destruct (exec g (db w)) as [r d]. split; [exact He|apply Hev].
Qed.

Lemma stamped_insert (i : Invitation.fresh) (g : Gen) (d : Db) :
  accepted_stamped d -> accepted_stamped (snd (insert_invitation i g d)).
Proof.
  intros H. unfold accepted_stamped. simpl. apply Forall_app.
  split; [exact H|]. constructor; [|constructor].
  unfold stamped. simpl. discriminate.
Qed.

Lemma stamped_update (id : string) (u : Invitation.partial) (d : Db) :
  (Invitation.p_status u = Some "accepted" ->
   Invitation.p_accepted_at u <> None) ->
  Invitation.p_status u <> None ->
  accepted_stamped d -> accepted_stamped (update_invitations id u d).
Proof.
  intros Hu Hs H. unfold accepted_stamped. simpl.
  apply Forall_forall. intros r Hr. apply in_map_iff in Hr.
  destruct Hr as (r0 & <- & Hin).
  destruct (Invitation.id r0 =? id)%string.
  - unfold stamped. simpl.
    destruct (Invitation.p_status u) as [s|]; [|contradiction].
    simpl. intros ->. specialize (Hu eq_refl).
    destruct (Invitation.p_accepted_at u); [discriminate | contradiction].
  - unfold accepted_stamped in H. rewrite Forall_forall in H. now apply H.
Qed.

(** Walks through a handler, request by request. *)
Ltac keep_step :=
  first
    [ apply keeps_ret | apply keeps_throw | apply keeps_or_throw
    | apply keeps_bind; [|intros ?]
    | apply keeps_try_catch; [|intros ?]
    | apply keeps_try_finally
    | apply keeps_emit; exact I
    | apply keeps_supabase;
      [ simpl; try exact I
      | intros ? ? ?;
        first
          [ apply stamped_insert; assumption
          | simpl;
            try match goal with
              | |- context [update_single ?p ?f ?l] =>
                  destruct (update_single p f l)
              | |- context [insert_team_member ?m ?g ?d] =>
                  unfold insert_team_member
              end; simpl; try assumption ] ]
    | match goal with
      | |- keeps _ (match ?x with _ => _ end) => destruct x
      end ].

Lemma service_keeps (c : ServiceCall) : keeps invitations_sound (service c).
Proof.
  destruct c; unfold service, shaped, fetchProjects, createProject,
    updateProject, deleteProject, fetchTasks, createTask, updateTaskStatus,
    updateTask, deleteTask, fetchTeams, createTeam, addTeamMember,
    fetchUserProfile, updateUserProfile, fetchTags, createTag, addTagToTask,
    removeTagFromTask, fetchComments, createComment, addProjectMember,
    fetchProjectMembers, toast_error, toast_success, console_error;
    repeat keep_step.
Qed.

Lemma perform_keeps (a : Action) : keeps invitations_sound (perform a).
Proof.
  destruct a; simpl.
  - apply keeps_bind; [apply service_keeps | intros; apply keeps_ret].
  - unfold board_drop, handleDrop, handleTaskDrop, updateTaskStatus,
      updateTask, toast_error, toast_success, console_error.
    repeat keep_step.
  - unfold handleAccept, toast_error, toast_success, console_error, navigate.
    repeat keep_step.
    + intros _. discriminate.
    + apply stamped_update; [intros _; discriminate | discriminate
                            | assumption].
  - unfold handleDecline, toast_error, toast_info, console_error, navigate.
    repeat keep_step.
    + discriminate.
    + apply stamped_update; [discriminate | discriminate | assumption].
  - unfold handleInvite, toast_error, toast_success, console_error.
    repeat keep_step.
  - unfold getInvitationLink, copyInvitationLink, toast_error, toast_success,
      console_error.
    repeat keep_step.
Qed.

(** C6: every update of an invitation that the application sends with status
    accepted carries an acceptance time, and the tables keep the invariant:
    starting from a world where every accepted invitation has an acceptance
    time and the trace holds only such updates, any sequence of application
    actions, whatever the backend answers, ends in such a world. *)
Theorem accepted_invitations_are_stamped (actions : list Action) (w : World) :
  invitations_sound w ->
  (forall r, In r (team_invitations (db (perform_all actions w))) ->
     Invitation.status r = "accepted" -> Invitation.accepted_at r <> None)
  /\ (forall id u err,
        In (Backend (UpdateInvitation id u) err)
          (trace (perform_all actions w)) ->
        Invitation.p_status u = Some "accepted" ->
        Invitation.p_accepted_at u <> None).
Proof.
  intros H.
  assert (Hs : invitations_sound (perform_all actions w)).
  { unfold perform_all. revert w H.
    induction actions as [|a l IH]; intros w H; simpl; [exact H|].
    apply IH. now apply perform_keeps. }
  destruct Hs as [Hd Ht]. split.
  - intros r Hin. unfold accepted_stamped in Hd.
    rewrite Forall_forall in Hd. now apply Hd.
  - intros id u err Hin. rewrite Forall_forall in Ht.
    exact (Ht _ Hin).
Qed.

Lemma accepted_invitations_are_stamped_witness :
  invitations_sound (world1 [served; served])
  /\ (forall r,
        In r (team_invitations
                (db (perform_all
                       [DoAccept (Some ann) (Some page_invitation1)
                          "2025-04-02T00:00:00Z"]
                       (world1 [served; served])))) ->
        Invitation.status r = "accepted" -> Invitation.accepted_at r <> None)
  /\ (forall id u err,
        In (Backend (UpdateInvitation id u) err)
          (trace (perform_all
                    [DoAccept (Some ann) (Some page_invitation1)
                       "2025-04-02T00:00:00Z"]
                    (world1 [served; served]))) ->
        Invitation.p_status u = Some "accepted" ->
        Invitation.p_accepted_at u <> None).
Proof.
  assert (H : invitations_sound (world1 [served; served])).
  { split; simpl.
    - unfold accepted_stamped. simpl. constructor; [|constructor].
      unfold stamped. simpl. discriminate.
    - constructor. }
  split; [exact H|].
  apply (accepted_invitations_are_stamped
           [DoAccept (Some ann) (Some page_invitation1)
              "2025-04-02T00:00:00Z"]
           (world1 [served; served]) H).
Defined.

Example accepted_invitation_world1 :
  team_invitations
    (db (perform_all
           [DoAccept (Some ann) (Some page_invitation1)
              "2025-04-02T00:00:00Z"]
           (world1 [served; served])))
  = [Invitation.mk "i1" "team1" "ann@example.com" "member" "accepted" "tok1"
       "u1" (Some "2025-04-02T00:00:00Z")].
Proof. reflexivity. Qed.

(** * Further properties *)

(** ** The data-access layer, beyond failures *)

Lemma backend_requests_app (a b : list Event) :
  backend_requests (a ++ b) = backend_requests a ++ backend_requests b.
Proof.
  induction a as [|e a IH]; simpl; [reflexivity|].
  destruct e; simpl; now rewrite ?IH.
Qed.

Lemma update_single_failure {A} (p : A -> bool) (f : A -> A)
  (l l' : list A) (m : string) :
  update_single p f l = (Failure m, l') -> l' = l.
Proof.
  unfold update_single. destruct (single _); intros H; now inversion H.
Qed.

(** Like [split_replies], and a refused update is known to change nothing. *)
Ltac split_replies_db w :=
  destruct (replies w) as [|[?m|?g] [|[?m|?g] ?rest]]; simpl;
  repeat match goal with
    | |- context [update_single ?p ?f ?l] =>
        let U := fresh "U" in
        destruct (update_single p f l) as [[?m|?x] ?l0] eqn:U; simpl;
        [apply update_single_failure in U; subst|]
    | |- context [single ?l] => destruct (single l) as [?m|?x]; simpl
    | |- context [insert_team_member ?m ?g ?d] =>
        destruct (insert_team_member m g d) as [?row ?d0]; simpl
    end.

Ltac absurd_events :=
  repeat match goal with
    | H : _ \/ _ |- _ => destruct H
    | H : False |- _ => destruct H
    | H : Backend _ _ = Backend _ _ |- _ => inversion H; clear H; subst
    | H : _ = Backend _ _ |- _ => discriminate H
    end.

Lemma service_round_trips_run (c : ServiceCall) (w : World) :
  exists evs,
    trace (snd (service c w)) = trace w ++ evs
    /\ match c with
       | CallDeleteProject id =>
           backend_requests evs
           = if next_is_served w
             then [DeleteProjectTasks id; DeleteProject id]
             else [DeleteProjectTasks id]
       | _ => length (backend_requests evs) = 1
       end
    /\ replies (snd (service c w))
       = skipn (length (backend_requests evs)) (replies w).
Proof.
  unfold next_is_served.
  destruct c; unfold_service; split_replies w;
    rewrite <- ?app_assoc; simpl;
    (eexists; split; [reflexivity|]); simpl; split; reflexivity.
Qed.

(** X1: every function of the service makes exactly one round trip to the
    backend, but [deleteProject]: it sends the deletion of the project's
    tasks and, only when the backend does not refuse that one, the deletion
    of the project after it.  Each round trip uses up one answer. *)
Theorem service_round_trips (c : ServiceCall) (w : World) :
  let evs := events_since w (snd (service c w)) in
  match c with
  | CallDeleteProject id =>
      backend_requests evs
      = if next_is_served w
        then [DeleteProjectTasks id; DeleteProject id]
        else [DeleteProjectTasks id]
  | _ => length (backend_requests evs) = 1
  end
  /\ replies (snd (service c w))
     = skipn (length (backend_requests evs)) (replies w).
Proof.
  intros evs. subst evs.
  destruct (service_round_trips_run c w) as (evs & Ht & H).
  rewrite (events_since_app _ _ _ Ht). exact H.
Qed.

Lemma service_failure_run (c : ServiceCall) (w : World) :
  exists evs,
    trace (snd (service c w)) = trace w ++ evs
    /\ (forall q m, In (Backend q (Some m)) evs ->
        is_deleteProject c = false -> db (snd (service c w)) = db w)
    /\ (is_fetch c = true -> db (snd (service c w)) = db w).
Proof.
  destruct c; unfold_service; split_replies_db w;
    rewrite <- ?app_assoc; simpl;
    (eexists; split; [reflexivity|]); split;
    try (intros q e Hin Hc; simpl in Hin, Hc);
    try (intros Hc; simpl in Hc);
    absurd_events; try discriminate;
    try reflexivity; destruct (db w); reflexivity.
Qed.

(** X2: the functions that fetch never change a table, whatever the
    backend answers; and a call of any function but [deleteProject] in
    which a backend request fails leaves every table as it was. *)
Theorem service_changes_nothing (c : ServiceCall) (w : World) :
  (is_fetch c = true -> db (snd (service c w)) = db w)
  /\ (forall q m,
        In (Backend q (Some m)) (events_since w (snd (service c w))) ->
        is_deleteProject c = false ->
        db (snd (service c w)) = db w).
Proof.
  destruct (service_failure_run c w) as (evs & Ht & H & Hfetch).
  rewrite (events_since_app _ _ _ Ht). split; assumption.
Qed.

Lemma service_changes_nothing_witness :
  db (snd (service (CallFetchTags "p1") (world1 [served])))
  = db (world1 [served])
  /\ db (snd (service (CallUpdateTaskStatus "t1" completed)
                (world1 [Fault "denied"])))
     = db (world1 [Fault "denied"]).
Proof.
  split.
  - apply (proj1 (service_changes_nothing (CallFetchTags "p1")
                    (world1 [served]))).
    reflexivity.
  - apply (proj2 (service_changes_nothing
                    (CallUpdateTaskStatus "t1" completed)
                    (world1 [Fault "denied"]))
             (UpdateTask "t1" (Task.only_status completed)) "denied").
    + simpl. left. reflexivity.
    + reflexivity.
Defined.

Lemma filter_filter_negb {A} (p : A -> bool) (l : list A) :
  filter p (filter (fun x => negb (p x)) l) = [].
Proof.
  induction l as [|x l IH]; simpl; [reflexivity|].
  destruct (p x) eqn:E; simpl; [exact IH|]. now rewrite E.
Qed.

Lemma deleteProject_true (id : string) (w : World) :
  fst (deleteProject id w) = Returned true ->
  db (snd (deleteProject id w))
  = with_projects (filter (fun p => negb (Project.id p =? id)%string))
      (with_tasks (filter (fun t => negb (Task.project_id t =? id)%string))
         (db w)).
Proof.
  unfold deleteProject, try_catch, bind, supabase, or_throw, toast_success,
    toast_error, emit, ret, throw.
  destruct (replies w) as [|[m|g] [|[m'|g'] rest]]; simpl; intros H;
    try discriminate; reflexivity.
Qed.

(** X3: after [deleteProject] has returned true, [fetchTasks] of that
    project returns the empty list and [fetchProjects] returns no project
    of that identity, whatever the backend answers to them. *)
Theorem deleteProject_then_fetch (id : string) (w : World) :
  fst (deleteProject id w) = Returned true ->
  fst (fetchTasks id (snd (deleteProject id w))) = Returned []
  /\ exists l,
      fst (fetchProjects (snd (deleteProject id w))) = Returned l
      /\ forall p, In p l -> Project.id p <> id.
Proof.
  intros H. apply deleteProject_true in H.
  unfold fetchTasks, fetchProjects, try_catch, bind, supabase, or_throw,
    toast_error, emit, ret, throw.
  destruct (replies (snd (deleteProject id w))) as [|[m|g] rest]; simpl;
    rewrite ?H; simpl;
    rewrite ?(filter_filter_negb
                (fun t => (Task.project_id t =? id)%string)); simpl;
    (split; [reflexivity|]); eexists; (split; [reflexivity|]);
    intros p Hp; try contradiction;
    (eapply Permutation_in in Hp; [|apply order_by_perm]);
    apply filter_In in Hp; destruct Hp as [_ Hp];
    now apply negb_true_iff, String.eqb_neq in Hp.
Qed.

Lemma deleteProject_then_fetch_witness :
  fst (fetchTasks "p1" (snd (deleteProject "p1" (world1 [])))) = Returned []
  /\ exists l,
      fst (fetchProjects (snd (deleteProject "p1" (world1 [])))) = Returned l
      /\ forall p, In p l -> Project.id p <> "p1".
Proof.
  apply (deleteProject_then_fetch "p1" (world1 [])). reflexivity.
Defined.

(** X4: a task that [createTask] reports as created is in the list that the
    next [fetchTasks] of its project returns, when the backend serves that
    request; the created row carries the submitted fields. *)
Theorem createTask_then_fetchTasks (task : Task.fresh) (w : World)
  (row : Task.t) :
  fst (createTask task w) = Returned (Some row) ->
  next_is_served (snd (createTask task w)) = true ->
  (Task.title row = Task.f_title task
   /\ Task.status row = Task.f_status task
   /\ Task.priority row = Task.f_priority task
   /\ Task.project_id row = Task.f_project_id task)
  /\ exists l,
      fst (fetchTasks (Task.f_project_id task) (snd (createTask task w)))
      = Returned l
      /\ In row l.
Proof.
  unfold createTask, try_catch, bind, supabase, or_throw, toast_success,
    toast_error, emit, ret, throw.
  unfold next_is_served.
  destruct (replies w) as [|[m|g] [|[m'|g'] rest]]; simpl;
    intros Hrow Hnext; try discriminate; inversion Hrow; subst; clear Hrow;
    (split; [repeat split|]);
    unfold fetchTasks, try_catch, bind, supabase, or_throw, ret; simpl;
    (eexists; split; [reflexivity|]);
    (eapply Permutation_in; [symmetry; apply order_by_perm|]);
    rewrite filter_app; apply in_or_app; right; simpl;
    rewrite String.eqb_refl; now left.
Qed.

Lemma createTask_then_fetchTasks_witness :
  (Task.title (Task.mk "new" "Plan" None todo low None "p1" "u1"
                 "2025-04-01T00:00:00Z" "2025-04-01T00:00:00Z") = "Plan"
   /\ Task.status (Task.mk "new" "Plan" None todo low None "p1" "u1"
                     "2025-04-01T00:00:00Z" "2025-04-01T00:00:00Z") = todo
   /\ Task.priority (Task.mk "new" "Plan" None todo low None "p1" "u1"
                       "2025-04-01T00:00:00Z" "2025-04-01T00:00:00Z") = low
   /\ Task.project_id (Task.mk "new" "Plan" None todo low None "p1" "u1"
                         "2025-04-01T00:00:00Z" "2025-04-01T00:00:00Z")
      = "p1")
  /\ exists l,
      fst (fetchTasks "p1"
             (snd (createTask (Task.mkFresh "Plan" None todo low None "p1"
                                 "u1") (world1 [served; served]))))
      = Returned l
      /\ In (Task.mk "new" "Plan" None todo low None "p1" "u1"
               "2025-04-01T00:00:00Z" "2025-04-01T00:00:00Z") l.
Proof.
  apply (createTask_then_fetchTasks
           (Task.mkFresh "Plan" None todo low None "p1" "u1")
           (world1 [served; served])); reflexivity.
Defined.

Lemma update_single_none {A} (p : A -> bool) (f : A -> A) (l : list A) :
  (forall x, In x l -> p x = false) ->
  update_single p f l = (Failure single_error, l).
Proof.
  intros H. unfold update_single.
  assert (E : filter p l = []).
  { induction l as [|x l IH]; simpl; [reflexivity|].
    rewrite (H x (or_introl eq_refl)). apply IH. intros y Hy.
    apply H. now right. }
  now rewrite E.
Qed.

(** X5: [updateTask] on an identity that no task has returns null and
    changes no table; the user sees an error toast and no success toast. *)
Theorem updateTask_unknown_id (id : string) (updates : Task.partial)
  (w : World) :
  (forall t, In t (tasks (db w)) -> Task.id t <> id) ->
  fst (updateTask id updates w) = Returned None
  /\ db (snd (updateTask id updates w)) = db w
  /\ exists m,
      events_since w (snd (updateTask id updates w))
      = [Backend (UpdateTask id updates) (Some m);
         Toast error ("Error updating task: " ++ m)%string]
      /\ (next_is_served w = true -> m = single_error).
Proof.
  intros Hnone.
  assert (U : update_single (fun t => (Task.id t =? id)%string)
                (apply_task updates) (tasks (db w))
              = (Failure single_error, tasks (db w))).
  { apply update_single_none. intros t Ht. apply String.eqb_neq. auto. }
  unfold updateTask, try_catch, bind, supabase, or_throw, toast_success,
    toast_error, emit, ret, throw, next_is_served.
  destruct (replies w) as [|[m|g] rest]; simpl; rewrite ?U; simpl;
    rewrite <- ?app_assoc; simpl;
    (split; [reflexivity|]);
    (split; [try reflexivity; destruct (db w); reflexivity|]);
    eexists; (split; [apply events_since_app; reflexivity|]);
    intros H; try reflexivity; discriminate.
Qed.

Lemma updateTask_unknown_id_witness :
  fst (updateTask "t9" (Task.only_status review) (world1 [served]))
  = Returned None
  /\ db (snd (updateTask "t9" (Task.only_status review) (world1 [served])))
     = db (world1 [served])
  /\ exists m,
      events_since (world1 [served])
        (snd (updateTask "t9" (Task.only_status review) (world1 [served])))
      = [Backend (UpdateTask "t9" (Task.only_status review)) (Some m);
         Toast error ("Error updating task: " ++ m)%string]
      /\ (next_is_served (world1 [served]) = true -> m = single_error).
Proof.
  apply (updateTask_unknown_id "t9" (Task.only_status review)
           (world1 [served])).
  simpl. intros t [<- | [<- | [<- | []]]]; discriminate.
Defined.

Lemma filter_singleton_in {A} (p : A -> bool) (l : list A) (r x : A) :
  filter p l = [r] -> In x l -> p x = true -> x = r.
Proof.
  intros F Hin Hp.
  assert (H : In x (filter p l)) by (apply filter_In; now split).
  rewrite F in H. destruct H as [H | []]. now symmetry.
Qed.

(** X6: when [updateTaskStatus] returns a row, that row is the stored task
    of the given identity with its status replaced and nothing else changed,
    the stored task is replaced by it, and every other task and table is as
    before. *)
Theorem updateTaskStatus_changes_status_only (id : string) (status : Status)
  (w : World) (row : Task.t) :
  fst (updateTaskStatus id status w) = Returned (Some row) ->
  (exists old,
      In old (tasks (db w)) /\ Task.id old = id
      /\ row = Task.mk (Task.id old) (Task.title old) (Task.description old)
                 status (Task.priority old) (Task.due_date old)
                 (Task.project_id old) (Task.user_id old)
                 (Task.created_at old) (Task.updated_at old))
  /\ db (snd (updateTaskStatus id status w))
     = with_tasks
         (map (fun t => if (Task.id t =? id)%string then row else t)) (db w).
Proof.
  unfold updateTaskStatus, updateTask, try_catch, bind, supabase, or_throw,
    toast_success, toast_error, emit, ret, throw.
  assert (Hcore : forall x l,
    update_single (fun t => (Task.id t =? id)%string)
      (apply_task (Task.only_status status)) (tasks (db w)) = (Data x, l) ->
    (exists old,
      In old (tasks (db w)) /\ Task.id old = id
      /\ x = Task.mk (Task.id old) (Task.title old) (Task.description old)
               status (Task.priority old) (Task.due_date old)
               (Task.project_id old) (Task.user_id old)
               (Task.created_at old) (Task.updated_at old))
    /\ l = map (fun t => if (Task.id t =? id)%string then x else t)
             (tasks (db w))).
  { intros x l U. unfold update_single in U.
    destruct (single _) as [m|y] eqn:E; inversion U; subst; clear U.
    apply single_data in E.
    destruct (filter _ (tasks (db w))) as [|r [|? ?]] eqn:F;
      try discriminate.
    inversion E; subst; clear E.
    assert (Hr : In r (filter (fun t => (Task.id t =? id)%string)
                         (tasks (db w)))) by (rewrite F; now left).
    apply filter_In in Hr. destruct Hr as [Hin Hid].
    split.
    - exists r. split; [exact Hin|]. split; [now apply String.eqb_eq|].
      reflexivity.
    - apply map_ext_in. intros t Ht.
      destruct (Task.id t =? id)%string eqn:Et; [|reflexivity].
      now rewrite (filter_singleton_in _ _ _ _ F Ht Et). }
  destruct (replies w) as [|[m|g] rest]; simpl;
    try (destruct (update_single _ _ _) as [[m1|x] l1] eqn:U; simpl);
    intros Hrow; try discriminate; inversion Hrow; subst; clear Hrow;
    destruct (Hcore _ _ eq_refl) as [Hold ->]; (split; [exact Hold|]);
    reflexivity.
Qed.

Lemma updateTaskStatus_changes_status_only_witness :
  (exists old,
      In old (tasks (db (world1 [served]))) /\ Task.id old = "t1"
      /\ Task.mk "t1" "Write report" None review high None "p1" "u1"
           "2025-03-01T10:00:00Z" "2025-03-01T10:00:00Z"
         = Task.mk (Task.id old) (Task.title old) (Task.description old)
             review (Task.priority old) (Task.due_date old)
             (Task.project_id old) (Task.user_id old)
             (Task.created_at old) (Task.updated_at old))
  /\ db (snd (updateTaskStatus "t1" review (world1 [served])))
     = with_tasks
         (map (fun t =>
                 if (Task.id t =? "t1")%string
                 then Task.mk "t1" "Write report" None review high None "p1"
                        "u1" "2025-03-01T10:00:00Z" "2025-03-01T10:00:00Z"
                 else t))
         (db (world1 [served])).
Proof.
  apply (updateTaskStatus_changes_status_only "t1" review (world1 [served])).
  reflexivity.
Defined.

(** X7: [deleteTask], when the backend serves it, removes exactly the tasks
    of the given identity and reports success, also when there was no such
    task and nothing was removed; when the backend refuses, it returns false
    and removes nothing. *)
Theorem deleteTask_removes_by_id (id : string) (w : World) :
  let r := fst (deleteTask id w) in
  let w' := snd (deleteTask id w) in
  (next_is_served w = true ->
   r = Returned true
   /\ events_since w w'
      = [Backend (DeleteTask id) None;
         Toast success "Task deleted successfully!"]
   /\ (forall t, In t (tasks (db w'))
                 <-> In t (tasks (db w)) /\ Task.id t <> id)
   /\ ((forall t, In t (tasks (db w)) -> Task.id t <> id) ->
       db w' = db w))
  /\ (next_is_served w = false -> r = Returned false /\ db w' = db w).
Proof.
  unfold deleteTask, try_catch, bind, supabase, or_throw, toast_success,
    toast_error, emit, ret, throw, next_is_served.
  assert (Hin : forall t,
    In t (filter (fun t => negb (Task.id t =? id)%string) (tasks (db w)))
    <-> In t (tasks (db w)) /\ Task.id t <> id).
  { intros t. rewrite filter_In, negb_true_iff, String.eqb_neq. tauto. }
  assert (Hsame : (forall t, In t (tasks (db w)) -> Task.id t <> id) ->
    with_tasks (filter (fun t => negb (Task.id t =? id)%string)) (db w)
    = db w).
  { intros H. unfold with_tasks. rewrite filter_true.
    - destruct (db w); reflexivity.
    - intros t Ht. apply negb_true_iff, String.eqb_neq. auto. }
  destruct (replies w) as [|[m|g] rest]; simpl; rewrite <- ?app_assoc;
    simpl; split; intros H; try discriminate;
    repeat split; try (apply events_since_app; reflexivity);
    try (apply Hin); try assumption.
  all: try (apply Hin; assumption).
Qed.

Lemma deleteTask_removes_by_id_witness :
  fst (deleteTask "t9" (world1 [served])) = Returned true
  /\ events_since (world1 [served]) (snd (deleteTask "t9" (world1 [served])))
     = [Backend (DeleteTask "t9") None;
        Toast success "Task deleted successfully!"]
  /\ (forall t,
        In t (tasks (db (snd (deleteTask "t9" (world1 [served])))))
        <-> In t (tasks (db (world1 [served]))) /\ Task.id t <> "t9")
  /\ ((forall t, In t (tasks (db (world1 [served]))) -> Task.id t <> "t9") ->
      db (snd (deleteTask "t9" (world1 [served]))) = db (world1 [served])).
Proof.
  apply (proj1 (deleteTask_removes_by_id "t9" (world1 [served]))).
  reflexivity.
Defined.

(** X8: when the backend serves it, [fetchTasks] returns all the tasks of
    the project and only them, each as often as the table holds it, newest
    first. *)
Theorem fetchTasks_complete_newest_first (projectId : string) (w : World) :
  next_is_served w = true ->
  exists l,
    fst (fetchTasks projectId w) = Returned l
    /\ Permutation l
         (filter (fun t => (Task.project_id t =? projectId)%string)
            (tasks (db w)))
    /\ StronglySorted (not_older Task.created_at) l.
Proof.
  unfold fetchTasks, try_catch, bind, supabase, or_throw, ret,
    next_is_served.
  destruct (replies w) as [|[m|g] rest]; simpl; intros H;
    try discriminate;
    (eexists; split; [reflexivity|]); split;
    first [apply order_by_perm | apply order_by_descending].
Qed.

Lemma fetchTasks_complete_newest_first_witness :
  exists l,
    fst (fetchTasks "p1" (world1 [served])) = Returned l
    /\ Permutation l
         (filter (fun t => (Task.project_id t =? "p1")%string)
            (tasks (db (world1 [served]))))
    /\ StronglySorted (not_older Task.created_at) l.
Proof.
  apply (fetchTasks_complete_newest_first "p1" (world1 [served])).
  reflexivity.
Defined.

(** X9: [fetchUserProfile] returns a profile only if it is the one stored
    profile of that user; with no profile, or several, for the user it
    returns null.  In no case does it show a toast or change a table. *)
Theorem fetchUserProfile_result (userId : string) (w : World) :
  let mine := filter (fun p => (UserProfile.id p =? userId)%string)
                (user_profiles (db w)) in
  (forall p, fst (fetchUserProfile userId w) = Returned (Some p) ->
             mine = [p] /\ UserProfile.id p = userId)
  /\ (length mine <> 1 -> fst (fetchUserProfile userId w) = Returned None)
  /\ existsb is_toast (events_since w (snd (fetchUserProfile userId w)))
     = false
  /\ db (snd (fetchUserProfile userId w)) = db w.
Proof.
  intros mine.
  assert (Hdata : forall x, single mine = Data x ->
            mine = [x] /\ UserProfile.id x = userId).
  { intros x E. apply single_data in E. split; [exact E|].
    assert (Hx : In x mine) by (rewrite E; now left).
    apply filter_In in Hx. now apply String.eqb_eq. }
  assert (Hlen : forall x, single mine = Data x -> length mine = 1).
  { intros x E. apply single_data in E. now rewrite E. }
  unfold fetchUserProfile, try_catch, bind, supabase, or_throw,
    console_error, emit, ret, throw. fold mine.
  destruct (replies w) as [|[m|g] rest]; simpl;
    try (destruct (single mine) as [m1|x] eqn:E; simpl);
    rewrite <- ?app_assoc; simpl;
    (erewrite events_since_app by reflexivity); simpl;
    (split; [intros p Hp; try discriminate; inversion Hp; subst;
             now apply Hdata|]);
    (split; [intros Hne; try reflexivity; exfalso; apply Hne;
             eapply Hlen; reflexivity|]);
    split; reflexivity.
Qed.

Lemma fetchUserProfile_result_witness :
  fst (fetchUserProfile "u1" (world1 [served])) = Returned None.
Proof.
  apply (proj1 (proj2 (fetchUserProfile_result "u1" (world1 [served])))).
  simpl. discriminate.
Defined.

(** X10: linking a tag to a task and then unlinking it, both served, leaves
    no link between the two: the table of links is the one before the two
    calls without the links of that task and tag, and is the same table when
    there was no such link. *)
Theorem addTag_then_removeTag (taskId tagId : string) (w : World)
  (link : TaskTag.t) :
  fst (addTagToTask taskId tagId w) = Returned (Some link) ->
  fst (removeTagFromTask taskId tagId (snd (addTagToTask taskId tagId w)))
  = Returned true ->
  let w2 := snd (removeTagFromTask taskId tagId
                   (snd (addTagToTask taskId tagId w))) in
  task_tags (db w2)
  = filter (fun x => negb (links taskId tagId x)) (task_tags (db w))
  /\ ((forall x, In x (task_tags (db w)) -> links taskId tagId x = false) ->
      task_tags (db w2) = task_tags (db w)).
Proof.
  unfold addTagToTask, removeTagFromTask, try_catch, bind, supabase,
    or_throw, toast_error, emit, ret, throw.
  assert (Hsame :
    (forall x, In x (task_tags (db w)) -> links taskId tagId x = false) ->
    filter (fun x => negb (links taskId tagId x)) (task_tags (db w))
    = task_tags (db w)).
  { intros H. apply filter_true. intros x Hx.
    apply negb_true_iff. auto. }
  destruct (replies w) as [|[m|g] [|[m'|g'] rest]]; simpl;
    intros Hlink Hrem; try discriminate; simpl;
    rewrite filter_app; simpl;
    rewrite !String.eqb_refl; simpl; rewrite app_nil_r;
    (split; [reflexivity | exact Hsame]).
Qed.

Lemma addTag_then_removeTag_witness :
  task_tags
    (db (snd (removeTagFromTask "t1" "g1"
                (snd (addTagToTask "t1" "g1" (world1 [served; served]))))))
  = filter (fun x => negb (links "t1" "g1" x))
      (task_tags (db (world1 [served; served])))
  /\ ((forall x, In x (task_tags (db (world1 [served; served]))) ->
                 links "t1" "g1" x = false) ->
      task_tags
        (db (snd (removeTagFromTask "t1" "g1"
                    (snd (addTagToTask "t1" "g1"
                            (world1 [served; served]))))))
      = task_tags (db (world1 [served; served]))).
Proof.
  apply (addTag_then_removeTag "t1" "g1" (world1 [served; served])
           (TaskTag.mk "new" "t1" "g1" "2025-04-01T00:00:00Z"));
    reflexivity.
Defined.

(** ** The board's filters and drops, further *)

Lemma array_includes_In (l : list string) (x : string) :
  array_includes l x = true <-> In x l.
Proof.
  unfold array_includes. rewrite existsb_exists. split.
  - intros (y & Hy & E). apply String.eqb_eq in E. now subst.
  - intros H. exists x. split; [exact H | apply String.eqb_refl].
Qed.

Lemma array_includes_same (l1 l2 : list string) (x : string) :
  (In x l1 <-> In x l2) -> array_includes l1 x = array_includes l2 x.
Proof.
  intros H. destruct (array_includes l1 x) eqn:E1;
    destruct (array_includes l2 x) eqn:E2; try reflexivity.
  - apply array_includes_In, H, array_includes_In in E1. congruence.
  - apply array_includes_In, H, array_includes_In in E2. congruence.
Qed.

(** X11: the priority filter is a set: two selections with the same members,
    in any order and with any repetitions, show the same tasks, and the
    selected tags play no part. *)
Theorem priority_selection_is_a_set (searchTerm : string)
  (selected1 selected2 tags1 tags2 : list string) (board : list Task.t) :
  (forall p, In p selected1 <-> In p selected2) ->
  filteredTasks searchTerm (mkFilters selected1 tags1) board
  = filteredTasks searchTerm (mkFilters selected2 tags2) board.
Proof.
  intros H. unfold filteredTasks. apply filter_ext. intros t. f_equal.
  unfold matchesPriority. simpl.
  rewrite (array_includes_same selected1 selected2 _ (H _)). f_equal.
  destruct selected1 as [|a l1], selected2 as [|b l2]; try reflexivity.
  - exfalso. apply (proj2 (H b)). now left.
  - exfalso. apply (proj1 (H a)). now left.
Qed.

Lemma priority_selection_is_a_set_witness :
  filteredTasks "" (mkFilters ["high"; "low"] []) [task1; task2; task3]
  = filteredTasks "" (mkFilters ["low"; "high"; "low"] ["urgent"])
      [task1; task2; task3].
Proof.
  apply (priority_selection_is_a_set "" ["high"; "low"]
           ["low"; "high"; "low"] [] ["urgent"] [task1; task2; task3]).
  intros p. simpl. tauto.
Defined.

(** X13: checking a priority in the filter menu selects it, unchecking it
    unselects it however often it was listed, and neither changes whether
    another priority is selected nor the selected tags. *)
Theorem onCheckedChange_selection (priority other : string) (checked : bool)
  (prev : Filters) :
  priority_checked (onCheckedChange priority true prev) priority = true
  /\ priority_checked (onCheckedChange priority false prev) priority = false
  /\ (other <> priority ->
      priority_checked (onCheckedChange priority checked prev) other
      = priority_checked prev other)
  /\ f_tags (onCheckedChange priority checked prev) = f_tags prev.
Proof.
  unfold priority_checked, onCheckedChange. simpl. repeat split.
  - apply array_includes_In, in_or_app. right. now left.
  - destruct (array_includes _ _) eqn:E; [|reflexivity].
    apply array_includes_In, filter_In in E. destruct E as [_ E].
    now rewrite String.eqb_refl in E.
  - intros Hne. apply array_includes_same. destruct checked.
    + rewrite in_app_iff. simpl. split; [|tauto].
      intros [H | [H | []]]; [exact H | congruence].
    + rewrite filter_In, negb_true_iff, String.eqb_neq. tauto.
Qed.

Lemma onCheckedChange_selection_witness :
  priority_checked (onCheckedChange "high" false (mkFilters ["low"; "high"] []))
    "low"
  = priority_checked (mkFilters ["low"; "high"] []) "low".
Proof.
  apply (proj1 (proj2 (proj2 (onCheckedChange_selection "high" "low" false
                                (mkFilters ["low"; "high"] []))))).
  discriminate.
Defined.

(** X14: unchecking a priority right after checking it gives back the
    selection there was, when the priority was not selected before; and
    checking a priority that is not selected never lists a priority
    twice. *)
Theorem onCheckedChange_round_trip (priority : string) (prev : Filters) :
  priority_checked prev priority = false ->
  onCheckedChange priority false (onCheckedChange priority true prev) = prev
  /\ (NoDup (f_priority prev) ->
      NoDup (f_priority (onCheckedChange priority true prev))).
Proof.
  intros H. unfold priority_checked in H.
  assert (Hnot : ~ In priority (f_priority prev)).
  { intros Hin. apply array_includes_In in Hin. congruence. }
  split.
  - destruct prev as [ps tg]. unfold onCheckedChange. simpl in *. f_equal.
    rewrite filter_app. simpl. rewrite String.eqb_refl. simpl.
    rewrite app_nil_r. apply filter_true. intros p Hp.
    apply negb_true_iff, String.eqb_neq. intros ->. contradiction.
  - intros Hnd. simpl.
    apply NoDup_app; [exact Hnd | | ].
    + repeat constructor. intros [].
    + intros x Hx [<- | []]. contradiction.
Qed.

Lemma onCheckedChange_round_trip_witness :
  onCheckedChange "high" false
    (onCheckedChange "high" true (mkFilters ["low"] []))
  = mkFilters ["low"] []
  /\ (NoDup (f_priority (mkFilters ["low"] [])) ->
      NoDup (f_priority (onCheckedChange "high" true (mkFilters ["low"] [])))).
Proof.
  apply (onCheckedChange_round_trip "high" (mkFilters ["low"] [])).
  reflexivity.
Defined.

(** X15: a drop that carries no card data, or the data of a card that the
    board does not show, only lowers the column's dropping flag: the drop
    callback is not called, whatever it is. *)
Theorem handleDrop_ignored (status : Status) (shown : list Task.t)
  (onDrop : Task.t -> Status -> M unit) (taskData : option DragData)
  (w : World) :
  (forall d, taskData = Some d ->
             forall t, In t shown -> Task.id t <> drag_id d) ->
  handleDrop status shown onDrop taskData w
  = (Returned tt,
     mkWorld (db w) (replies w) (trace w ++ [SetFlag "isDropping" false])).
Proof.
  intros H. unfold handleDrop, bind, emit, ret. simpl.
  destruct taskData as [d|]; [|reflexivity].
  destruct (negb _); [|reflexivity].
  destruct (find _ shown) as [full|] eqn:F; [|reflexivity].
  apply find_some in F. destruct F as [Hin E].
  apply String.eqb_eq in E. exfalso. exact (H d eq_refl full Hin E).
Qed.

Lemma handleDrop_ignored_witness :
  handleDrop review [task1; task2] handleTaskDrop
    (Some (handleDragStart task3)) (world1 [served])
  = (Returned tt,
     mkWorld (db (world1 [served])) (replies (world1 [served]))
       (trace (world1 [served]) ++ [SetFlag "isDropping" false])).
Proof.
  apply (handleDrop_ignored review [task1; task2] handleTaskDrop
           (Some (handleDragStart task3)) (world1 [served])).
  intros d E. inversion E. simpl.
  intros t [<- | [<- | []]]; discriminate.
Defined.

Lemma updateTaskStatus_returns (id : string) (status : Status) (w : World)
  (row : Task.t) :
  fst (updateTaskStatus id status w) = Returned (Some row) ->
  Task.id row = id /\ Task.status row = status.
Proof.
  unfold updateTaskStatus, updateTask, try_catch, bind, supabase, or_throw,
    toast_success, toast_error, emit, ret, throw.
  destruct (replies w) as [|[m|g] rest]; simpl;
    try (destruct (update_single _ _ _) as [[m1|x] l1] eqn:U; simpl);
    intros Hrow; try discriminate; inversion Hrow; subst; clear Hrow;
    apply update_single_data in U; destruct U as (_ & r & _ & Hp & ->);
    (split; [now apply String.eqb_eq | reflexivity]).
Qed.

Lemma updateTaskStatus_row_of (id : string) (status : Status) (w : World)
  (row : Task.t) :
  fst (updateTaskStatus id status w) = Returned (Some row) ->
  exists old, In old (tasks (db w)) /\ Task.id old = id
              /\ row = apply_task (Task.only_status status) old.
Proof.
  unfold updateTaskStatus, updateTask, try_catch, bind, supabase, or_throw,
    toast_success, toast_error, emit, ret, throw.
  destruct (replies w) as [|[m|g] rest]; simpl;
    try (destruct (update_single _ _ _) as [[m1|x] l1] eqn:U; simpl);
    intros Hrow; try discriminate; inversion Hrow; subst; clear Hrow;
    apply update_single_data in U; destruct U as (_ & r & Hin & Hp & ->);
    exists r; (split; [exact Hin|]); (split; [now apply String.eqb_eq|]);
    reflexivity.
Qed.

(** X16: from the drop to the board: when the status update of a drop
    returns the changed row and the realtime bridge then delivers that row
    as an UPDATE to a list that held a task of that identity, the board,
    which renders its columns from the tasks that pass the search and the
    priority filter, renders the row in the target column exactly when the
    row passes them, which it does exactly when the stored task did before
    the update; it renders no other task of that identity and none in
    another column, and the list holds as many tasks as before. *)
Theorem drop_then_update_notification (id : string) (status : Status)
  (w : World) (row : Task.t) (searchTerm : string) (filters : Filters)
  (board : list Task.t) :
  fst (updateTaskStatus id status w) = Returned (Some row) ->
  (exists t, In t board /\ Task.id t = id) ->
  let shown :=
    filteredTasks searchTerm filters (tasks_handler (UPDATE row) board) in
  (In row (column_cards status shown)
   <-> passes searchTerm filters row = true)
  /\ (exists old, In old (tasks (db w)) /\ Task.id old = id
                  /\ passes searchTerm filters row
                     = passes searchTerm filters old)
  /\ (forall s t, In t (column_cards s shown) -> Task.id t = id ->
                  t = row /\ s = status)
  /\ length (tasks_handler (UPDATE row) board) = length board.
Proof.
  intros Hrow (t0 & Hin & Hid0) shown.
  assert (Hold : exists old, In old (tasks (db w)) /\ Task.id old = id
                   /\ passes searchTerm filters row
                      = passes searchTerm filters old).
  { destruct (updateTaskStatus_row_of id status w row Hrow)
      as (old & Ho & Hido & ->).
    exists old. repeat split; assumption. }
  apply updateTaskStatus_returns in Hrow. destruct Hrow as [Hid Hst].
  assert (Hheld : In row (tasks_handler (UPDATE row) board)).
  { simpl. apply in_map_iff. exists t0. split; [|exact Hin].
    rewrite Hid0, Hid, String.eqb_refl. reflexivity. }
  assert (Hone : forall t, In t (tasks_handler (UPDATE row) board) ->
                           Task.id t = id -> t = row).
  { intros t Ht Hidt. simpl in Ht. apply in_map_iff in Ht.
    destruct Ht as (t1 & Ht1 & _).
    destruct (Task.id t1 =? Task.id row)%string eqn:E.
    - now symmetry.
    - subst t. apply String.eqb_neq in E. congruence. }
  subst shown. split; [|split; [exact Hold|split]];
    unfold column_cards, filteredTasks, passes.
  - rewrite !filter_In, status_eqb_eq. tauto.
  - intros s t Ht Hidt. rewrite !filter_In in Ht.
    destruct Ht as [[Ht _] Hs]. apply status_eqb_eq in Hs.
    specialize (Hone t Ht Hidt). subst t. split; [reflexivity|].
    congruence.
  - apply length_map.
Qed.

Lemma drop_then_update_notification_witness :
  (In (Task.mk "t1" "Write report" None review high None "p1" "u1"
         "2025-03-01T10:00:00Z" "2025-03-01T10:00:00Z")
     (column_cards review
        (filteredTasks "report" (mkFilters ["high"] [])
           (tasks_handler
              (UPDATE (Task.mk "t1" "Write report" None review high None
                         "p1" "u1" "2025-03-01T10:00:00Z"
                         "2025-03-01T10:00:00Z"))
              [task2; task1])))
   <-> passes "report" (mkFilters ["high"] [])
         (Task.mk "t1" "Write report" None review high None "p1" "u1"
            "2025-03-01T10:00:00Z" "2025-03-01T10:00:00Z") = true)
  /\ (exists old,
        In old (tasks (db (world1 [served]))) /\ Task.id old = "t1"
        /\ passes "report" (mkFilters ["high"] [])
             (Task.mk "t1" "Write report" None review high None "p1" "u1"
                "2025-03-01T10:00:00Z" "2025-03-01T10:00:00Z")
           = passes "report" (mkFilters ["high"] []) old)
  /\ (forall s t,
        In t (column_cards s
                (filteredTasks "report" (mkFilters ["high"] [])
                   (tasks_handler
                      (UPDATE (Task.mk "t1" "Write report" None review high
                                 None "p1" "u1" "2025-03-01T10:00:00Z"
                                 "2025-03-01T10:00:00Z"))
                      [task2; task1]))) ->
        Task.id t = "t1" ->
        t = Task.mk "t1" "Write report" None review high None "p1" "u1"
              "2025-03-01T10:00:00Z" "2025-03-01T10:00:00Z"
        /\ s = review)
  /\ length
       (tasks_handler
          (UPDATE (Task.mk "t1" "Write report" None review high None "p1"
                     "u1" "2025-03-01T10:00:00Z" "2025-03-01T10:00:00Z"))
          [task2; task1])
     = length [task2; task1].
Proof.
  apply (drop_then_update_notification "t1" review (world1 [served])
           (Task.mk "t1" "Write report" None review high None "p1" "u1"
              "2025-03-01T10:00:00Z" "2025-03-01T10:00:00Z")
           "report" (mkFilters ["high"] []) [task2; task1]).
  - reflexivity.
  - exists task1. split; [simpl; tauto | reflexivity].
Defined.

Example drop_then_update_shown :
  column_cards review
    (filteredTasks "report" (mkFilters ["high"] [])
       (tasks_handler
          (UPDATE (Task.mk "t1" "Write report" None review high None "p1"
                     "u1" "2025-03-01T10:00:00Z" "2025-03-01T10:00:00Z"))
          [task2; task1]))
  = [Task.mk "t1" "Write report" None review high None "p1" "u1"
       "2025-03-01T10:00:00Z" "2025-03-01T10:00:00Z"].
Proof. reflexivity. Qed.

(** ** The realtime bridge, further *)

(** X17: a notification for an identity that is not in the local list
    changes nothing: an UPDATE is not inserted and a DELETE removes
    nothing. *)
Theorem tasks_handler_unknown_id (row : Task.t) (prev : list Task.t) :
  (forall t, In t prev -> Task.id t <> Task.id row) ->
  tasks_handler (UPDATE row) prev = prev
  /\ tasks_handler (DELETE (Task.id row)) prev = prev.
Proof.
  intros H. simpl. split.
  - rewrite <- (map_id prev) at 2. apply map_ext_in. intros t Ht.
    apply H, String.eqb_neq in Ht. now rewrite Ht.
  - apply filter_true. intros t Ht.
    apply negb_true_iff, String.eqb_neq. auto.
Qed.

Lemma tasks_handler_unknown_id_witness :
  tasks_handler (UPDATE task3) [task2; task1] = [task2; task1]
  /\ tasks_handler (DELETE (Task.id task3)) [task2; task1] = [task2; task1].
Proof.
  apply (tasks_handler_unknown_id task3 [task2; task1]).
  simpl. intros t [<- | [<- | []]]; discriminate.
Defined.

(** X18: an UPDATE never changes which identities the list holds nor their
    order, and a DELETE leaves the identities of the list without the
    deleted one, in order. *)
Theorem tasks_handler_identities (row : Task.t) (old_id : string)
  (prev : list Task.t) :
  map Task.id (tasks_handler (UPDATE row) prev) = map Task.id prev
  /\ map Task.id (tasks_handler (DELETE old_id) prev)
     = filter (fun i => negb (i =? old_id)%string) (map Task.id prev).
Proof.
  simpl. split.
  - rewrite map_map. apply map_ext. intros t.
    destruct (Task.id t =? Task.id row)%string eqn:E; [|reflexivity].
    apply String.eqb_eq in E. now symmetry.
  - induction prev as [|t l IH]; simpl; [reflexivity|].
    destruct (Task.id t =? old_id)%string; simpl; now rewrite IH.
Qed.



(** X20: a notification delivered twice: a second UPDATE or DELETE changes
    nothing more, while a second INSERT adds the row once more, so the list
    then holds two more entries of that identity than before. *)
Theorem duplicate_notification (row : Task.t) (old_id : string)
  (prev : list Task.t) :
  tasks_handler (UPDATE row) (tasks_handler (UPDATE row) prev)
  = tasks_handler (UPDATE row) prev
  /\ tasks_handler (DELETE old_id) (tasks_handler (DELETE old_id) prev)
     = tasks_handler (DELETE old_id) prev
  /\ length (filter (fun t => (Task.id t =? Task.id row)%string)
               (tasks_handler (INSERT row) (tasks_handler (INSERT row) prev)))
     = 2 + length (filter (fun t => (Task.id t =? Task.id row)%string) prev).
Proof.
  simpl. repeat split.
  - rewrite map_map. apply map_ext. intros t.
    destruct (Task.id t =? Task.id row)%string eqn:E.
    + now rewrite String.eqb_refl.
    + now rewrite E.
  - induction prev as [|t l IH]; simpl; [reflexivity|].
    destruct (Task.id t =? old_id)%string eqn:E; simpl; [exact IH|].
    rewrite E. simpl. now rewrite IH.
  - now rewrite String.eqb_refl.
Qed.

(** X21: the local list stays a list of tasks of the open project: when
    every task in it belongs to the project and the notified row, if there
    is one, does too, every task of the new list belongs to the project. *)
Theorem tasks_handler_keeps_project (projectId : string) (payload : Payload)
  (prev : list Task.t) :
  Forall (fun t => Task.project_id t = projectId) prev ->
  match payload with
  | INSERT new | UPDATE new => Task.project_id new = projectId
  | DELETE _ => True
  end ->
  Forall (fun t => Task.project_id t = projectId)
    (tasks_handler payload prev).
Proof.
  intros Hprev Hrow. rewrite Forall_forall in *.
  destruct payload as [new|new|old_id]; simpl; intros t Ht.
  - destruct Ht as [<- | Ht]; auto.
  - apply in_map_iff in Ht. destruct Ht as (t0 & <- & Ht0).
    destruct (Task.id t0 =? Task.id new)%string; auto.
  - apply filter_In in Ht. destruct Ht as [Ht _]. auto.
Qed.

Lemma tasks_handler_keeps_project_witness :
  Forall (fun t => Task.project_id t = "p1")
    (tasks_handler (INSERT task2) [task1]).
Proof.
  apply (tasks_handler_keeps_project "p1" (INSERT task2) [task1]).
  - constructor; [reflexivity | constructor].
  - reflexivity.
Defined.

(** ** Team invitations, further *)

Ltac unfold_handlers :=
  unfold handleAccept, handleDecline, handleInvite, getInvitationLink,
    copyInvitationLink, try_finally, try_catch, bind, supabase, or_throw,
    toast_error, toast_success, toast_info, console_error, navigate, emit,
    ret, throw.

Lemma handleAccept_run (user : User) (invitation : TeamInvitation)
  (now : string) (w : World) :
  email_matches user invitation = true ->
  let member := TeamMember.mkFresh (inv_team_id invitation) (user_id user)
                  (inv_role invitation) in
  let u := Invitation.mkPartial (Some "accepted") (Some now) in
  let w' := snd (handleAccept (Some user) (Some invitation) now w) in
  (exists m,
      trace w' = trace w ++
        [SetFlag "isAccepting" true;
         Backend (InsertTeamMember member) (Some m);
         ConsoleError ("Error accepting invitation: " ++ m)%string;
         Toast error "There was a problem accepting the invitation";
         SetFlag "isAccepting" false]
      /\ db w' = db w)
  \/ (exists g m,
         trace w' = trace w ++
           [SetFlag "isAccepting" true;
            Backend (InsertTeamMember member) None;
            Backend (UpdateInvitation (inv_id invitation) u) (Some m);
            ConsoleError ("Error accepting invitation: " ++ m)%string;
            Toast error "There was a problem accepting the invitation";
            SetFlag "isAccepting" false]
         /\ db w' = snd (insert_team_member member g (db w)))
  \/ (exists g,
         trace w' = trace w ++
           [SetFlag "isAccepting" true;
            Backend (InsertTeamMember member) None;
            Backend (UpdateInvitation (inv_id invitation) u) None;
            Toast success "You have successfully joined the team!";
            Navigate "/teams";
            SetFlag "isAccepting" false]
         /\ db w' = update_invitations (inv_id invitation) u
                      (snd (insert_team_member member g (db w)))).
Proof.
  intros E member u w'. subst member u w'. unfold_handlers. simpl.
  rewrite E. simpl.
  destruct (replies w) as [|[m|g] [|[m'|g'] rest]]; simpl;
    rewrite <- ?app_assoc; simpl;
    solve [ left; eexists; split; reflexivity
          | right; left; exists g; eexists; split; reflexivity
          | right; right; exists g; split; reflexivity
          | right; right; exists default_gen; split; reflexivity ].
Qed.

(** X22: when the emails match and no request fails, [handleAccept], which
    does not look at the invitation's status, leaves a membership of the
    user in the invitation's team with the invitation's role, marks the
    invitation of that identity accepted at the given time, and goes to the
    teams page. *)
Theorem handleAccept_joins_team (user : User) (invitation : TeamInvitation)
  (now : string) (w : World) :
  email_matches user invitation = true ->
  let w' := snd (handleAccept (Some user) (Some invitation) now w) in
  (forall q m, ~ In (Backend q (Some m)) (events_since w w')) ->
  (exists m, In m (team_members (db w'))
             /\ is_membership (inv_team_id invitation) (user_id user)
                  (inv_role invitation) m = true)
  /\ (forall r, In r (team_invitations (db w')) ->
        Invitation.id r = inv_id invitation ->
        Invitation.status r = "accepted"
        /\ Invitation.accepted_at r = Some now)
  /\ In (Navigate "/teams") (events_since w w').
Proof.
  intros E w' Hok. subst w'.
  destruct (handleAccept_run user invitation now w E)
    as [(m & Ht & _) | [(g & m & Ht & _) | (g & Ht & Hd)]];
    rewrite (events_since_app _ _ _ Ht) in *.
  - exfalso. eapply Hok. simpl. right. left. reflexivity.
  - exfalso. eapply Hok. simpl. right. right. left. reflexivity.
  - rewrite Hd. simpl. split; [|split].
    + eexists. split; [apply in_or_app; right; now left|].
      unfold is_membership. simpl. now rewrite !String.eqb_refl.
    + intros r Hr Hid. apply in_map_iff in Hr.
      destruct Hr as (r0 & <- & _).
      destruct (Invitation.id r0 =? inv_id invitation)%string eqn:Eid.
      * split; reflexivity.
      * apply String.eqb_neq in Eid. contradiction.
    + simpl. tauto.
Qed.

Lemma handleAccept_joins_team_witness :
  (exists m,
      In m (team_members
              (db (snd (handleAccept (Some ann) (Some page_invitation1)
                          "2025-04-02T00:00:00Z" (world1 [served; served])))))
      /\ is_membership "team1" "u2" "member" m = true)
  /\ (forall r,
        In r (team_invitations
                (db (snd (handleAccept (Some ann) (Some page_invitation1)
                            "2025-04-02T00:00:00Z"
                            (world1 [served; served]))))) ->
        Invitation.id r = "i1" ->
        Invitation.status r = "accepted"
        /\ Invitation.accepted_at r = Some "2025-04-02T00:00:00Z")
  /\ In (Navigate "/teams")
       (events_since (world1 [served; served])
          (snd (handleAccept (Some ann) (Some page_invitation1)
                  "2025-04-02T00:00:00Z" (world1 [served; served])))).
Proof.
  apply (handleAccept_joins_team ann page_invitation1
           "2025-04-02T00:00:00Z" (world1 [served; served])).
  - reflexivity.
  - simpl. intros q m [H | [H | [H | [H | [H | [H | []]]]]]];
      discriminate H.
Defined.



(** X24: [handleDecline] sends one update; served, it sets the status of the
    invitation of that identity to declined, keeps its acceptance time and
    every other invitation, and goes to the home page; refused, it changes
    nothing.  It never touches the memberships. *)
Theorem handleDecline_marks_declined (invitation : TeamInvitation)
  (w : World) :
  let w' := snd (handleDecline (Some invitation) w) in
  backend_requests (events_since w w')
  = [UpdateInvitation (inv_id invitation)
       (Invitation.mkPartial (Some "declined") None)]
  /\ team_members (db w') = team_members (db w)
  /\ (next_is_served w = true ->
      In (Navigate "/") (events_since w w')
      /\ team_invitations (db w')
         = map (fun r =>
                  if (Invitation.id r =? inv_id invitation)%string
                  then Invitation.mk (Invitation.id r) (Invitation.team_id r)
                         (Invitation.email r) (Invitation.role r) "declined"
                         (Invitation.token r) (Invitation.invited_by r)
                         (Invitation.accepted_at r)
                  else r)
             (team_invitations (db w)))
  /\ (next_is_served w = false ->
      db w' = db w
      /\ In (Toast error "There was a problem declining the invitation")
           (events_since w w')).
Proof.
  unfold_handlers. unfold next_is_served. simpl.
  destruct (replies w) as [|[m|g] rest]; simpl; rewrite <- ?app_assoc;
    simpl; (erewrite events_since_app by reflexivity); simpl;
    repeat split; try (intros; discriminate); simpl; tauto.
Qed.

Lemma handleDecline_marks_declined_witness :
  In (Navigate "/")
    (events_since (world1 [served])
       (snd (handleDecline (Some page_invitation1) (world1 [served]))))
  /\ team_invitations
       (db (snd (handleDecline (Some page_invitation1) (world1 [served]))))
     = map (fun r =>
              if (Invitation.id r =? inv_id page_invitation1)%string
              then Invitation.mk (Invitation.id r) (Invitation.team_id r)
                     (Invitation.email r) (Invitation.role r) "declined"
                     (Invitation.token r) (Invitation.invited_by r)
                     (Invitation.accepted_at r)
              else r)
         (team_invitations (db (world1 [served]))).
Proof.
  apply (proj1 (proj2 (proj2 (handleDecline_marks_declined page_invitation1
                                (world1 [served]))))).
  reflexivity.
Defined.



Example handleInvite_empty_team :
  handleInvite (Some ann) (Some "") (mkInvite "cy@example.com" "admin")
    (world1 [served])
  = (Returned tt, world1 [served]).
Proof. reflexivity. Qed.

(** X26: when the team already has a pending invitation and the backend
    serves the query, [getInvitationLink] creates nothing: its only request
    is the query, no table changes, and the link written to the clipboard
    carries the token of the first pending invitation of the team, to
    whomever that invitation is addressed. *)
Theorem getInvitationLink_reuses_pending (b : Browser) (user : option User)
  (teamId : string) (w : World) (first : Invitation.t)
  (others : list Invitation.t) :
  filter (fun r => (Invitation.team_id r =? teamId)%string
                   && (Invitation.status r =? "pending")%string)
    (team_invitations (db w)) = first :: others ->
  next_is_served w = true ->
  let w' := snd (getInvitationLink b user teamId w) in
  backend_requests (events_since w w') = [SelectPendingInvitations teamId]
  /\ db w' = db w
  /\ In (ClipboardWrite
           (origin b ++ "/team/invite/" ++ Invitation.token first)%string
           (clipboard_ok b))
       (events_since w w').
Proof.
  intros F. unfold_handlers. unfold next_is_served. simpl.
  destruct (replies w) as [|[m|g] rest]; simpl; intros H;
    try discriminate; rewrite F; simpl;
    destruct (clipboard_ok b); simpl; rewrite <- ?app_assoc; simpl;
    (erewrite events_since_app by reflexivity); simpl;
    (split; [reflexivity|]); (split; [reflexivity|]); tauto.
Qed.

Lemma getInvitationLink_reuses_pending_witness :
  backend_requests
    (events_since (world1 [served])
       (snd (getInvitationLink (mkBrowser "https://flow.example" true)
               (Some bob) "team1" (world1 [served]))))
  = [SelectPendingInvitations "team1"]
  /\ db (snd (getInvitationLink (mkBrowser "https://flow.example" true)
                (Some bob) "team1" (world1 [served])))
     = db (world1 [served])
  /\ In (ClipboardWrite
           (origin (mkBrowser "https://flow.example" true)
            ++ "/team/invite/" ++ Invitation.token invitation1)%string
           (clipboard_ok (mkBrowser "https://flow.example" true)))
       (events_since (world1 [served])
          (snd (getInvitationLink (mkBrowser "https://flow.example" true)
                  (Some bob) "team1" (world1 [served])))).
Proof.
  apply (getInvitationLink_reuses_pending
           (mkBrowser "https://flow.example" true) (Some bob) "team1"
           (world1 [served]) invitation1 []); reflexivity.
Defined.

Lemma handleAccept_mismatch_run (user : User) (invitation : TeamInvitation)
  (now : string) (w : World) :
  email_matches user invitation = false ->
  handleAccept (Some user) (Some invitation) now w
  = (Returned tt,
     mkWorld (db w) (replies w)
       (trace w ++
          [SetFlag "isAccepting" true;
           Toast error "This invitation was sent to a different email address";
           SetFlag "isAccepting" false])).
Proof.
  intros H. unfold_handlers. simpl. rewrite H. simpl.
  now rewrite <- !app_assoc.
Qed.

(** X27: when the team has no pending invitation and no request fails,
    [getInvitationLink] inserts one invitation, addressed to the placeholder
    email with the role member, and copies a link with its token; accepting
    that invitation as a user with any other email sends no request and
    changes no table. *)
Theorem general_invitation_link (b : Browser) (inviter : option User)
  (teamId : string) (w : World) :
  filter (fun r => (Invitation.team_id r =? teamId)%string
                   && (Invitation.status r =? "pending")%string)
    (team_invitations (db w)) = [] ->
  let w1 := snd (getInvitationLink b inviter teamId w) in
  (forall q m, ~ In (Backend q (Some m)) (events_since w w1)) ->
  exists row,
    team_invitations (db w1) = team_invitations (db w) ++ [row]
    /\ Invitation.email row = "general_invite@example.com"
    /\ Invitation.role row = "member"
    /\ Invitation.team_id row = teamId
    /\ In (ClipboardWrite
             (origin b ++ "/team/invite/" ++ Invitation.token row)%string
             (clipboard_ok b))
         (events_since w w1)
    /\ forall (user : User) (now : string),
        user_email user <> Some "general_invite@example.com" ->
        db (snd (handleAccept (Some user) (Some (page_view row)) now w1))
        = db w1
        /\ backend_requests
             (events_since w1
                (snd (handleAccept (Some user) (Some (page_view row)) now
                        w1)))
           = [].
Proof.
  intros F w1 Hok.
  assert (Hrun : exists evs,
    trace w1 = trace w ++ evs
    /\ ((exists q m, In (Backend q (Some m)) evs)
        \/ exists row,
           team_invitations (db w1) = team_invitations (db w) ++ [row]
           /\ Invitation.email row = "general_invite@example.com"
           /\ Invitation.role row = "member"
           /\ Invitation.team_id row = teamId
           /\ In (ClipboardWrite
                    (origin b ++ "/team/invite/"
                     ++ Invitation.token row)%string (clipboard_ok b)) evs)).
  { subst w1. clear Hok. unfold_handlers. unfold insert_invitation. simpl.
    destruct (replies w) as [|[m|g] [|[m'|g'] rest]]; simpl;
      rewrite ?F; simpl;
      destruct (clipboard_ok b); simpl; rewrite <- ?app_assoc; simpl;
      eexists; (split; [reflexivity|]);
      first [ right; eexists; repeat split; simpl; tauto
            | left; do 2 eexists; simpl; tauto ]. }
  destruct Hrun as (evs & Ht & Hcases).
  rewrite (events_since_app _ _ _ Ht) in *.
  destruct Hcases
    as [(q & m & Hin) | (row & Hrows & Hemail & Hrole & Hteam & Hclip)].
  { exfalso. exact (Hok q m Hin). }
  exists row. repeat (split; [assumption|]).
  intros user now Hne.
  assert (E : email_matches user (page_view row) = false).
  { apply email_matches_false. simpl. now rewrite Hemail. }
  rewrite (handleAccept_mismatch_run user (page_view row) now w1 E). simpl.
  split; [reflexivity|].
  erewrite events_since_app by reflexivity. reflexivity.
Qed.

Lemma general_invitation_link_witness :
  exists row,
    team_invitations
      (db (snd (getInvitationLink (mkBrowser "https://flow.example" true)
                  (Some bob) "team2" (world1 [served; served]))))
    = team_invitations (db (world1 [served; served])) ++ [row]
    /\ Invitation.email row = "general_invite@example.com"
    /\ Invitation.role row = "member"
    /\ Invitation.team_id row = "team2"
    /\ In (ClipboardWrite
             (origin (mkBrowser "https://flow.example" true)
              ++ "/team/invite/" ++ Invitation.token row)%string
             (clipboard_ok (mkBrowser "https://flow.example" true)))
         (events_since (world1 [served; served])
            (snd (getInvitationLink (mkBrowser "https://flow.example" true)
                    (Some bob) "team2" (world1 [served; served]))))
    /\ forall (user : User) (now : string),
        user_email user <> Some "general_invite@example.com" ->
        db (snd (handleAccept (Some user) (Some (page_view row)) now
                   (snd (getInvitationLink
                           (mkBrowser "https://flow.example" true)
                           (Some bob) "team2" (world1 [served; served])))))
        = db (snd (getInvitationLink (mkBrowser "https://flow.example" true)
                     (Some bob) "team2" (world1 [served; served])))
        /\ backend_requests
             (events_since
                (snd (getInvitationLink
                        (mkBrowser "https://flow.example" true)
                        (Some bob) "team2" (world1 [served; served])))
                (snd (handleAccept (Some user) (Some (page_view row)) now
                        (snd (getInvitationLink
                                (mkBrowser "https://flow.example" true)
                                (Some bob) "team2"
                                (world1 [served; served]))))))
           = [].
Proof.
  apply (general_invitation_link (mkBrowser "https://flow.example" true)
           (Some bob) "team2" (world1 [served; served])).
  - reflexivity.
  - simpl. intros q m [H | [H | [H | [H | [H | [H | []]]]]]];
      discriminate H.
Defined.

(** ** Reports and dashboard *)

Lemma fetchTasks_run (projectId : string) (w : World) :
  exists evs,
    fetchTasks projectId w
    = (Returned
         (if served_at 0 (replies w)
          then order_by (descending Task.created_at)
                 (filter (fun t => (Task.project_id t =? projectId)%string)
                    (tasks (db w)))
          else []),
       mkWorld (db w) (tl (replies w)) (trace w ++ evs))
    /\ backend_requests evs = [SelectTasks projectId].
Proof.
  unfold fetchTasks, try_catch, bind, supabase, or_throw, toast_error, emit,
    ret, throw, served_at.
  destruct (replies w) as [|[m|g] rest]; simpl; rewrite <- ?app_assoc;
    eexists; split; reflexivity.
Qed.

Lemma skipn_tl {A} (n : nat) (l : list A) : skipn n (tl l) = skipn (S n) l.
Proof. destruct l; simpl; [now rewrite skipn_nil | reflexivity]. Qed.

Lemma served_at_tl (i : nat) (answers : list Reply) :
  served_at i (tl answers) = served_at (S i) answers.
Proof. unfold served_at. destruct answers; simpl; now destruct i. Qed.

Lemma collectTasks_run (projects : list Project.t) (allTasks : list Task.t)
  (w : World) :
  exists evs,
    collectTasks projects allTasks w
    = (Returned (allTasks ++ expected_tasks (db w) projects (replies w)),
       mkWorld (db w) (skipn (length projects) (replies w)) (trace w ++ evs))
    /\ backend_requests evs
       = map (fun p => SelectTasks (Project.id p)) projects.
Proof.
  revert allTasks w.
  induction projects as [|p rest IH]; intros allTasks w; simpl.
  - exists []. rewrite !app_nil_r. destruct w. split; reflexivity.
  - destruct (fetchTasks_run (Project.id p) w) as (evs1 & E1 & Hq1).
    unfold bind. rewrite E1.
    destruct (IH (allTasks
                  ++ (if served_at 0 (replies w)
                      then order_by (descending Task.created_at)
                             (filter
                                (fun t =>
                                   (Task.project_id t =? Project.id p)%string)
                                (tasks (db w)))
                      else []))
                (mkWorld (db w) (tl (replies w)) (trace w ++ evs1)))
      as (evs2 & E2 & Hq2).
    rewrite E2. simpl. exists (evs1 ++ evs2).
    rewrite skipn_tl, <- !app_assoc. split; [reflexivity|].
    rewrite backend_requests_app, Hq1, Hq2. reflexivity.
Qed.

Lemma expected_tasks_In (d : Db) (projects : list Project.t)
  (answers : list Reply) (t : Task.t) :
  In t (expected_tasks d projects answers)
  <-> In t (tasks d)
      /\ exists i p, nth_error projects i = Some p
                     /\ served_at i answers = true
                     /\ Task.project_id t = Project.id p.
Proof.
  revert answers.
  induction projects as [|p rest IH]; intros answers; simpl.
  - split; [intros [] | intros (_ & i & q & H & _)]. now destruct i.
  - rewrite in_app_iff, IH. split.
    + intros [H | (Hin & i & q & Hn & Hs & Hp)].
      * destruct (served_at 0 answers) eqn:E; [|destruct H].
        eapply Permutation_in in H; [|apply order_by_perm].
        apply filter_In in H. destruct H as [Hin Hid].
        apply String.eqb_eq in Hid. split; [exact Hin|].
        exists 0, p. repeat split; assumption.
      * split; [exact Hin|]. exists (S i), q.
        rewrite <- served_at_tl. repeat split; assumption.
    + intros (Hin & i & q & Hn & Hs & Hp). destruct i as [|i]; simpl in Hn.
      * inversion Hn; subst q. left. rewrite Hs.
        eapply Permutation_in; [symmetry; apply order_by_perm|].
        apply filter_In. split; [exact Hin | now apply String.eqb_eq].
      * right. split; [exact Hin|]. exists i, q.
        rewrite served_at_tl. repeat split; assumption.
Qed.

(** X28: the loop over the projects sends one task query per project, in
    the order of the projects, whatever the backend answers; it never fails
    and changes no table.  What it adds to the list is, project by project,
    the project's rows newest first when its query is served and nothing
    when its query is refused: a task is added exactly when it is in the
    table and belongs to a project whose query was served. *)
Theorem collectTasks_one_query_per_project (projects : list Project.t)
  (allTasks : list Task.t) (w : World) :
  let w' := snd (collectTasks projects allTasks w) in
  backend_requests (events_since w w')
  = map (fun p => SelectTasks (Project.id p)) projects
  /\ db w' = db w
  /\ fst (collectTasks projects allTasks w)
     = Returned (allTasks ++ expected_tasks (db w) projects (replies w))
  /\ forall t,
      In t (expected_tasks (db w) projects (replies w))
      <-> In t (tasks (db w))
          /\ exists i p, nth_error projects i = Some p
                         /\ served_at i (replies w) = true
                         /\ Task.project_id t = Project.id p.
Proof.
  destruct (collectTasks_run projects allTasks w) as (evs & E & Hq).
  simpl. rewrite E. simpl.
  erewrite events_since_app by reflexivity.
  split; [exact Hq|]. split; [reflexivity|]. split; [reflexivity|].
  intros t. apply expected_tasks_In.
Qed.

Lemma collectTasks_one_query_per_project_witness :
  In task3
    (expected_tasks (db (world1 [Fault "down"; served]))
       [project1; project2] (replies (world1 [Fault "down"; served]))).
Proof.
  apply (proj2 (proj2 (proj2 (collectTasks_one_query_per_project
           [project1; project2] [] (world1 [Fault "down"; served])))) task3).
  split.
  - simpl. tauto.
  - exists 1, project2. repeat split.
Defined.

Example collectTasks_world1 :
  fst (collectTasks [project1; project2] []
         (world1 [Fault "down"; served]))
  = Returned [task3].
Proof. reflexivity. Qed.

Lemma priority_counts_partition (l : list Task.t) :
  length (filter (fun t => priority_eqb (Task.priority t) low) l)
  + length (filter (fun t => priority_eqb (Task.priority t) medium) l)
  + length (filter (fun t => priority_eqb (Task.priority t) high) l)
  = length l.
Proof.
  induction l as [|t l IH]; simpl; [reflexivity|].
  destruct (Task.priority t); simpl; lia.
Qed.

Lemma chart_total_filter (items : list ChartItem) :
  chart_total (filter (fun item => (0 <? item_value item)%nat) items)
  = chart_total items.
Proof.
  induction items as [|i items IH]; simpl; [reflexivity|].
  destruct (0 <? item_value i)%nat eqn:E; simpl; rewrite IH.
  - reflexivity.
  - apply Nat.ltb_ge in E. lia.
Qed.

Lemma filter_positive (items : list ChartItem) :
  Forall (fun item => 0 < item_value item)
    (filter (fun item => (0 <? item_value item)%nat) items).
Proof.
  apply Forall_forall. intros i Hi. apply filter_In in Hi.
  now apply Nat.ltb_lt.
Qed.

(** X29: the figures of the reports page add up: the four status counts sum
    to the total, and so do the three priority counts; the status chart and
    the priority chart leave out the empty entries, every entry they keep is
    positive, and the values of each chart sum to the total.  The dashboard
    builds the same two charts. *)
Theorem report_figures_add_up (l : list Task.t) :
  let stats := computeStats l in
  TaskStats.todo stats + TaskStats.inProgress stats + TaskStats.review stats
  + TaskStats.completed stats = TaskStats.total stats
  /\ TaskStats.low stats + TaskStats.medium stats + TaskStats.high stats
     = TaskStats.total stats
  /\ chart_total (statusData stats) = TaskStats.total stats
  /\ chart_total (priorityData stats) = TaskStats.total stats
  /\ Forall (fun item => 0 < item_value item) (statusData stats)
  /\ Forall (fun item => 0 < item_value item) (priorityData stats)
  /\ dashboard_statusData l = statusData stats
  /\ dashboard_priorityData l = priorityData stats.
Proof.
  intros stats. subst stats.
  pose proof (filter_status_partition l) as Hs. unfold column_cards in Hs.
  pose proof (priority_counts_partition l) as Hp.
  split; [simpl; lia|]. split; [simpl; lia|].
  split; [unfold statusData; rewrite chart_total_filter; simpl; lia|].
  split; [unfold priorityData; rewrite chart_total_filter; simpl; lia|].
  split; [apply filter_positive|]. split; [apply filter_positive|].
  split; reflexivity.
Qed.

Example statusData_task1_task2 :
  statusData (computeStats [task1; task2])
  = [mkItem "To Do" 1 "#94a3b8"; mkItem "In Review" 1 "#f59e0b"].
Proof. reflexivity. Qed.





Example loadStats_world1 :
  fst (loadStats (Some ann) (fun _ _ => true) [project1; project2] "p1"
         "all-time" (world1 [served]))
  = Returned
      (Some
         (mkReport (TaskStats.mk 2 0 0 1 1 1 0 1)
            [mkItem "To Do" 1 "#94a3b8"; mkItem "In Review" 1 "#f59e0b"]
            [mkItem "Low" 1 "#3b82f6"; mkItem "High" 1 "#ef4444"])).
Proof. reflexivity. Qed.
